(** * PythonEditor: the execution session of src/components/PythonEditor.tsx

    The component owns one Pyodide interpreter, loads it once when it is
    mounted, and runs the editor's text against it each time the Run button
    is clicked.  The development below embeds

    - the component state (the seven [useState] cells),
    - the four Python snippets the component sends to the interpreter,
    - the two asynchronous functions [initPyodide] and [runPython], cut at
      their [await]s into a step function over events, and
    - the two event handlers [onClick] and [handleEditorChange],

    and states the session properties over that step function.  The
    interpreter itself (package [pyodide]) is not part of the repository: it
    is an interface, [Pyodide], that the theorems quantify over. *)

From Stdlib Require Import String Ascii List Lia DecimalString DecimalNat.
From stdpp Require Import base list.
Import ListNotations.

Local Open Scope string_scope.

(** ** JavaScript strings *)

(** Truthiness of a JS string: only the empty string is falsy. *)
Definition truthy (s : string) : bool :=
  match s with
  | EmptyString => false
  | String _ _ => true
  end.

(** [a || b] on strings. *)
Definition js_or (a b : string) : string := if truthy a then a else b.

(** Truthiness of [string | undefined]. *)
Definition truthy_opt (v : option string) : bool :=
  match v with
  | Some s => truthy s
  | None => false
  end.

(** [strip_prefix p s] is [Some r] when [s = p ++ r]. *)
Fixpoint strip_prefix (p s : string) : option string :=
  match p with
  | EmptyString => Some s
  | String c p' =>
      match s with
      | EmptyString => None
      | String d s' => if Ascii.eqb c d then strip_prefix p' s' else None
      end
  end.

Definition newline : string := String (ascii_of_nat 10) EmptyString.

(** ** The interpreter *)

(** What an awaited interpreter call settles to: a value, or a thrown
    error carrying [message]. *)
Inductive outcome (A : Type) : Type :=
| Returned (a : A)
| Raised (message : string).
Arguments Returned {A} a.
Arguments Raised {A} message.

(** What [sys.stdout] is bound to: the console stream the interpreter starts
    with, or an [io.StringIO] buffer with the text written so far. *)
Inductive Stream : Type :=
| Console
| StringIO (contents : string).

(** Keyword arguments of [fig.savefig]. *)
Record SaveOptions : Type := {
  format : string;
  dpi : nat;
  bbox_inches : string
}.

(** [fig.savefig(buf, format='png', dpi=100, bbox_inches='tight')] *)
Definition png_options : SaveOptions :=
  {| format := "png"; dpi := 100; bbox_inches := "tight" |}.

Section Interpreter.
Context {Figure Heap : Type}.

(** The part of the interpreter's state the component's snippets read or
    write.  [figs] lists the open figures in the order
    [plt.get_fignums()] enumerates them (ascending figure number, which
    is creation order for [plt.figure()]); [name_sys] and [name_plt] say
    whether the global names [sys] and [plt] denote the modules, since
    the snippets share the interpreter's globals with the user's code;
    [heap] is everything else, the other global names and the objects
    behind them (user variables persist between runs) and the callbacks
    waiting on the interpreter's event loop. *)
Record Py : Type := {
  sys_stdout : Stream;
  figs : list Figure;
  name_sys : bool;
  name_plt : bool;
  heap : Heap
}.

(** The interface of the external interpreter. *)
Class Pyodide : Type := {
  (** the heap of a freshly loaded interpreter *)
  heap0 : Heap;
  (** [pyodide.runPythonAsync(currentCode)]: the user's source text run
      against the interpreter; it returns nothing the component uses and
      may raise *)
  exec : string -> Py -> Py * outcome unit;
  (** [fig.savefig(buf, ...)] followed by [buf.getvalue()] *)
  savefig : Figure -> SaveOptions -> outcome string;
  (** [base64.b64encode(bytes).decode('utf-8')] *)
  b64encode : string -> string;
  (** message of the error [sys.stdout.getvalue()] raises when
      [sys.stdout] has no buffer to read *)
  getvalue_error : Py -> string;
  (** message of the error the figure snippet raises when [plt] is not
      pyplot *)
  plt_error : Py -> string;
  (** what the snippets of the component leave in the user's globals, in
      which they run: lines 72-73 bind [sys] and [StringIO] *)
  bind_redirect : Heap -> Heap;
  (** lines 83-86 bind [base64], [BytesIO] and [plot_data] *)
  bind_imports : Heap -> Heap;
  (** lines 87-89 bind [i], [fig] and [buf] for one figure *)
  bind_figure : Figure -> Heap -> Heap;
  (** lines 90-91 fill [buf] and extend [plot_data] with the encoded bytes *)
  bind_saved : Figure -> string -> Heap -> Heap;
  (** the event loop of the interpreter takes a turn: the callbacks that
      earlier code has left on it and that are due (timers set with
      [call_later], tasks) run; nothing changes when none is due.  Line 77
      awaits the top-level code only, not what that code has scheduled. *)
  callbacks : Py -> Py
}.

Context `{!Pyodide}.

(** The interpreter [loadPyodide] resolves to. *)
Definition py_fresh : Py :=
  {| sys_stdout := Console; figs := []; name_sys := false;
     name_plt := false; heap := heap0 |}.

(** Lines 46-49: [import matplotlib.pyplot as plt; plt.switch_backend('agg')]. *)
Definition py_configure (e : Py) : Py :=
  {| sys_stdout := sys_stdout e; figs := figs e; name_sys := name_sys e;
     name_plt := true; heap := heap e |}.

(** Lines 71-75: [import sys; from io import StringIO; sys.stdout = StringIO()].
    The snippet binds the names it uses itself ([sys] and [StringIO], in
    the user's globals), so it does not depend on what earlier code did to
    those names; it binds [sys.stdout] to a fresh, empty buffer.  No snippet
    of the component binds [sys.stdout] again.  The snippet is taken to
    return: [sys] and [io] are loaded when the interpreter starts, so the
    snippet can raise only after user code has tampered with the import
    machinery or with [io.StringIO] itself ([builtins.__import__],
    [sys.modules]), and such interpreters are outside this model. *)
Definition py_redirect (e : Py) : Py :=
  {| sys_stdout := StringIO ""; figs := figs e; name_sys := true;
     name_plt := name_plt e; heap := bind_redirect (heap e) |}.

(** Line 79: [sys.stdout.getvalue()].  It reads the global [sys] and needs
    [sys.stdout] to be a buffer; the interpreter state is unchanged. *)
Definition py_getvalue (e : Py) : outcome string :=
  if name_sys e then
    match sys_stdout e with
    | StringIO s => Returned s
    | Console => Raised (getvalue_error e)
    end
  else Raised (getvalue_error e).

(** Lines 87-92, the loop over [plt.get_fignums()]: each figure is bound to
    [fig] with a new [buf], saved, encoded, appended to [plot_data] and
    closed.  When [savefig] raises, the loop is left at once: that figure
    and the ones after it stay open.  The result is the list of figures
    still open, the globals as the loop left them, and the outcome. *)
Fixpoint save_figures (fs : list Figure) (h : Heap) (plot_data : list string)
  : list Figure * Heap * outcome (list string) :=
  match fs with
  | [] => ([], h, Returned plot_data)
  | fig :: rest =>
      match savefig fig png_options with
      | Returned buf =>
          save_figures rest (bind_saved fig buf (bind_figure fig h))
            (plot_data ++ [b64encode buf])%list
      | Raised m => (fig :: rest, bind_figure fig h, Raised m)
      end
  end.

(** Lines 82-94: the whole figure snippet; its value is [plot_data].  The
    imports and [plot_data = []] of lines 83-86 have run when line 87 looks
    [plt] up. *)
Definition py_figures (e : Py) : Py * outcome (list string) :=
  if name_plt e then
    let '(still_open, h, r) := save_figures (figs e) (bind_imports (heap e)) [] in
    ({| sys_stdout := sys_stdout e; figs := still_open;
        name_sys := name_sys e; name_plt := name_plt e; heap := h |}, r)
  else
    ({| sys_stdout := sys_stdout e; figs := figs e;
        name_sys := name_sys e; name_plt := name_plt e;
        heap := bind_imports (heap e) |}, Raised (plt_error e)).

End Interpreter.

Arguments Py : clear implicits.
Arguments Pyodide : clear implicits.

(** ** The component state *)

(** Lines 6-23. *)
Definition defaultCode : string :=
"import numpy as np
import matplotlib.pyplot as plt

# データの生成
x = np.linspace(0, 10, 100)
y1 = np.sin(x)
y2 = np.cos(x)

# プロットの作成
plt.figure(figsize=(10, 6))
plt.plot(x, y1, label='sin(x)')
plt.plot(x, y2, label='cos(x)')
plt.title('Sine and Cosine Waves')
plt.xlabel('x')
plt.ylabel('y')
plt.grid(True)
plt.legend()
plt.show()".

(** The reference the component keeps to the interpreter it loaded; the
    interpreter's state lives in the world ([interp] below). *)
Inductive PyodideInterface : Type := interpreter_ref.

(** Lines 26-32: the [useState] cells. *)
Record Component : Type := {
  output : string;
  plots : list string;
  isLoading : bool;
  isRunning : bool;
  pyodide : option PyodideInterface;
  status : string;
  currentCode : string
}.

Definition initial_component : Component :=
  {| output := ""; plots := []; isLoading := true; isRunning := false;
     pyodide := None; status := "Initializing..."; currentCode := defaultCode |}.

Definition setOutput (v : string) (c : Component) : Component :=
  {| output := v; plots := plots c; isLoading := isLoading c;
     isRunning := isRunning c; pyodide := pyodide c; status := status c;
     currentCode := currentCode c |}.

Definition setPlots (v : list string) (c : Component) : Component :=
  {| output := output c; plots := v; isLoading := isLoading c;
     isRunning := isRunning c; pyodide := pyodide c; status := status c;
     currentCode := currentCode c |}.

Definition setIsLoading (v : bool) (c : Component) : Component :=
  {| output := output c; plots := plots c; isLoading := v;
     isRunning := isRunning c; pyodide := pyodide c; status := status c;
     currentCode := currentCode c |}.

Definition setIsRunning (v : bool) (c : Component) : Component :=
  {| output := output c; plots := plots c; isLoading := isLoading c;
     isRunning := v; pyodide := pyodide c; status := status c;
     currentCode := currentCode c |}.

Definition setPyodide (v : option PyodideInterface) (c : Component) : Component :=
  {| output := output c; plots := plots c; isLoading := isLoading c;
     isRunning := isRunning c; pyodide := v; status := status c;
     currentCode := currentCode c |}.

Definition setStatus (v : string) (c : Component) : Component :=
  {| output := output c; plots := plots c; isLoading := isLoading c;
     isRunning := isRunning c; pyodide := pyodide c; status := v;
     currentCode := currentCode c |}.

Definition setCurrentCode (v : string) (c : Component) : Component :=
  {| output := output c; plots := plots c; isLoading := isLoading c;
     isRunning := isRunning c; pyodide := pyodide c; status := status c;
     currentCode := v |}.

(** The session phase an observer of the component reads off its state:
    the header shows [status] while [isLoading], and the Run button
    (disabled while [isRunning]) afterwards.  A failed load is the state
    line 55 leaves: still loading, with an [Error: ] status. *)
Inductive SessionPhase : Type :=
| Uninitialized
| Loading (progressLabel : string)
| Ready
| Running
| Failed (message : string).

Definition phase (c : Component) : SessionPhase :=
  if isLoading c then
    match strip_prefix "Error: " (status c) with
    | Some m => Failed m
    | None =>
        if String.eqb (status c) "Initializing..." then Uninitialized
        else Loading (status c)
    end
  else if isRunning c then Running else Ready.

(** The result an observer sees: the output text and the plots. *)
Definition result (c : Component) : string * list string := (output c, plots c).

(** ** The asynchronous functions, cut at their awaits *)

(** Where [initPyodide] (lines 35-58) is suspended. *)
Inductive InitTask : Type :=
| NotStarted
| AwaitLoadPyodide
| AwaitLoadPackage
| AwaitConfigure
| InitSettled.

(** Where one call of [runPython] (lines 63-103) is suspended. *)
Inductive RunPc : Type :=
| AwaitRedirect
| AwaitUserCode
| AwaitGetvalue
| AwaitFigures.

(** A suspended call of [runPython]: the [currentCode] its closure
    captured when the handler was created, and its program point. *)
Record RunTask : Type := {
  rt_code : string;
  rt_pc : RunPc
}.

(** The awaits a suspended call of [runPython] still has to pass. *)
Definition awaits_left (pc : RunPc) : nat :=
  match pc with
  | AwaitRedirect => 4
  | AwaitUserCode => 3
  | AwaitGetvalue => 2
  | AwaitFigures => 1
  end.

(** How a promise of the loader settles; loading depends on the network. *)
Inductive settled : Type :=
| Fulfilled
| Rejected (message : string).

(** What can happen next: the effect of mounting, the settling of an awaited
    promise, or a user action. *)
Inductive Event : Type :=
| Mount
| LoadPyodideSettled (r : settled)
| LoadPackageSettled (r : settled)
| ConfigureSettled (r : settled)
| ClickRun
| EditorChange (value : option string)
| RunSettled (i : nat).

(** What can happen next when the interpreter's own event loop is counted
    in: an event of the component, or a turn of the event loop in which
    callbacks of earlier code run. *)
Inductive Tick : Type :=
| Ev (ev : Event)
| EventLoop.

Section Session.
Context {Figure Heap : Type} `{!Pyodide Figure Heap}.

(** The component, the interpreter [loadPyodide] created (if any), and the
    suspended asynchronous calls.  [runs] is a list because nothing in
    [runPython] itself prevents a second call while one is suspended. *)
Record World : Type := {
  ui : Component;
  interp : option (Py Figure Heap);
  init : InitTask;
  runs : list RunTask
}.

Definition initial : World :=
  {| ui := initial_component; interp := None; init := NotStarted; runs := [] |}.

(** *** initPyodide *)

(** Lines 54-57: the catch block of [initPyodide]. *)
Definition initPyodide_catch (message : string) (w : World) : World :=
  {| ui := setStatus ("Error: " ++ message) (ui w);
     interp := interp w; init := InitSettled; runs := runs w |}.

(** Lines 37-38: from the call to the first await.  The effect that calls
    [initPyodide] has an empty dependency list (line 61): it runs once,
    when the component is mounted. *)
Definition initPyodide (w : World) : World :=
  match init w with
  | NotStarted =>
      {| ui := setStatus "Loading Python environment..." (ui w);
         interp := interp w; init := AwaitLoadPyodide; runs := runs w |}
  | _ => w
  end.

(** Lines 38-43: [loadPyodide] settles. *)
Definition loadPyodide_settled (r : settled) (w : World) : World :=
  match init w with
  | AwaitLoadPyodide =>
      match r with
      | Fulfilled =>
          {| ui := setStatus "Loading NumPy and Matplotlib..." (ui w);
             interp := Some py_fresh; init := AwaitLoadPackage; runs := runs w |}
      | Rejected m => initPyodide_catch m w
      end
  | _ => w
  end.

(** Lines 43-46: [loadPackage] settles. *)
Definition loadPackage_settled (r : settled) (w : World) : World :=
  match init w with
  | AwaitLoadPackage =>
      match r with
      | Fulfilled =>
          {| ui := setStatus "Configuring plotting..." (ui w);
             interp := interp w; init := AwaitConfigure; runs := runs w |}
      | Rejected m => initPyodide_catch m w
      end
  | _ => w
  end.

(** Lines 46-53: the configuration snippet settles. *)
Definition configure_settled (r : settled) (w : World) : World :=
  match init w with
  | AwaitConfigure =>
      match r with
      | Fulfilled =>
          {| ui := setStatus "Ready!"
                     (setIsLoading false
                        (setPyodide (Some interpreter_ref) (ui w)));
             interp := option_map py_configure (interp w);
             init := InitSettled; runs := runs w |}
      | Rejected m => initPyodide_catch m w
      end
  | _ => w
  end.

(** *** runPython *)

(** Lines 63-71: from the call to the first await. *)
Definition runPython (w : World) : World :=
  match pyodide (ui w) with
  | None => w
  | Some _ =>
      {| ui := setPlots [] (setOutput "Running..." (setIsRunning true (ui w)));
         interp := interp w; init := init w;
         runs := (runs w ++ [{| rt_code := currentCode (ui w);
                                rt_pc := AwaitRedirect |}])%list |}
  end.

(** The call suspends again at [pc]. *)
Definition run_suspend (i : nat) (t : RunTask) (pc : RunPc)
    (c : Component) (e : Py Figure Heap) (w : World) : World :=
  {| ui := c; interp := Some e; init := init w;
     runs := <[i := {| rt_code := rt_code t; rt_pc := pc |}]> (runs w) |}.

(** Lines 97-102: the catch block, then the finally block. *)
Definition run_catch (i : nat) (message : string)
    (e : Py Figure Heap) (w : World) : World :=
  {| ui := setIsRunning false (setOutput ("Error: " ++ message) (ui w));
     interp := Some e; init := init w; runs := delete i (runs w) |}.

(** Lines 96 and 100-102: [setPlots(figures)], then the finally block. *)
Definition run_return (i : nat) (figures : list string)
    (e : Py Figure Heap) (w : World) : World :=
  {| ui := setIsRunning false (setPlots figures (ui w));
     interp := Some e; init := init w; runs := delete i (runs w) |}.

(** The awaited interpreter call of the [i]-th suspended [runPython]
    settles, and the call runs on to its next await or to its end.  The
    interpreter runs on the one thread the component runs on: the Python
    code of a call has run when its promise settles.  The callbacks that
    code has left on the interpreter's event loop run between settlements
    and between runs; they are the turns [run_callbacks] below, which the
    schedules [run_ticks] interleave with the events of the component. *)
Definition runPython_resume (i : nat) (w : World) : World :=
  match runs w !! i, interp w with
  | Some t, Some e =>
      match rt_pc t with
      | AwaitRedirect =>
          run_suspend i t AwaitUserCode (ui w) (py_redirect e) w
      | AwaitUserCode =>
          let '(e', r) := exec (rt_code t) e in
          match r with
          | Returned _ => run_suspend i t AwaitGetvalue (ui w) e' w
          | Raised m => run_catch i m e' w
          end
      | AwaitGetvalue =>
          match py_getvalue e with
          | Returned stdout =>
              run_suspend i t AwaitFigures
                (setOutput (js_or stdout "Execution completed") (ui w)) e w
          | Raised m => run_catch i m e w
          end
      | AwaitFigures =>
          let '(e', r) := py_figures e in
          match r with
          | Returned figures => run_return i figures e' w
          | Raised m => run_catch i m e' w
          end
      end
  | _, _ => w
  end.

(** *** Event handlers *)

(** Lines 121-139: the Run button exists only when [isLoading] is false,
    and is disabled while [isRunning]; its [onClick] is [runPython].  The
    state updates of an event handler are rendered before the next event is
    handled, so the button a click lands on reflects the current state.
    The guard on [isRunning] is the button's, not [runPython]'s. *)
Definition onClick (w : World) : World :=
  if isLoading (ui w) then w
  else if isRunning (ui w) then w
  else runPython w.

(** Lines 105-109. *)
Definition handleEditorChange (value : option string) (w : World) : World :=
  match value with
  | Some v =>
      if truthy v then
        {| ui := setCurrentCode v (ui w); interp := interp w;
           init := init w; runs := runs w |}
      else w
  | None => w
  end.

(** *** The step function *)

Definition step (ev : Event) (w : World) : World :=
  match ev with
  | Mount => initPyodide w
  | LoadPyodideSettled r => loadPyodide_settled r w
  | LoadPackageSettled r => loadPackage_settled r w
  | ConfigureSettled r => configure_settled r w
  | ClickRun => onClick w
  | EditorChange v => handleEditorChange v w
  | RunSettled i => runPython_resume i w
  end.

Definition run_events (evs : list Event) (w : World) : World :=
  fold_left (fun w ev => step ev w) evs w.

(** One click on Run followed by the four settlements of its awaits, with
    no other event in between.  A run that fails early has no suspended
    call left, and the remaining settlements do nothing. *)
Definition submit (w : World) : World :=
  run_events [ClickRun; RunSettled 0; RunSettled 0; RunSettled 0; RunSettled 0] w.

(** The states the session can be in. *)
Inductive reachable : World -> Prop :=
| reachable_initial : reachable initial
| reachable_step ev w : reachable w -> reachable (step ev w).

(** *** The interpreter's event loop *)

(** The callbacks that are due run against the interpreter; the component
    is not involved and its state does not change. *)
Definition run_callbacks (w : World) : World :=
  {| ui := ui w; interp := option_map callbacks (interp w);
     init := init w; runs := runs w |}.

Definition tick (k : Tick) (w : World) : World :=
  match k with
  | Ev ev => step ev w
  | EventLoop => run_callbacks w
  end.

Definition run_ticks (ks : list Tick) (w : World) : World :=
  fold_left (fun w k => tick k w) ks w.

(** What can happen between two settlements of a run without starting or
    resuming a run: turns of the event loop and reports of the editor. *)
Definition background (k : Tick) : Prop :=
  match k with
  | EventLoop => True
  | Ev (EditorChange _) => True
  | Ev _ => False
  end.

(** *** runPython read sequentially *)

(** What [output] and [plots] show once a run with outcome [r] has ended:
    the text and the figures (lines 80 and 96), or the message of the catch
    block (line 98) with the plots line 68 cleared. *)
Definition shown (r : outcome (string * list string)) : string * list string :=
  match r with
  | Returned p => p
  | Raised m => ("Error: " ++ m, [])
  end.

(** Lines 82-99, with [text] already shown by line 80. *)
Definition run_from_figures (text : string) (e : Py Figure Heap)
  : Py Figure Heap * outcome (string * list string) :=
  let '(e', r) := py_figures e in
  match r with
  | Returned figures => (e', Returned (text, figures))
  | Raised m => (e', Raised m)
  end.

(** Lines 79-99. *)
Definition run_from_getvalue (e : Py Figure Heap)
  : Py Figure Heap * outcome (string * list string) :=
  match py_getvalue e with
  | Returned stdout => run_from_figures (js_or stdout "Execution completed") e
  | Raised m => (e, Raised m)
  end.

(** Lines 77-99. *)
Definition run_from_user (code : string) (e : Py Figure Heap)
  : Py Figure Heap * outcome (string * list string) :=
  let '(e', r) := exec code e in
  match r with
  | Returned _ => run_from_getvalue e'
  | Raised m => (e', Raised m)
  end.

(** Lines 70-99: the whole try block, run against [e] with no other event
    in between: the interpreter it leaves, and its outcome. *)
Definition run_to_completion (code : string) (e : Py Figure Heap)
  : Py Figure Heap * outcome (string * list string) :=
  run_from_user code (py_redirect e).

(** The rest of the suspended call [t], from its program point on. *)
Definition pending (t : RunTask) (c : Component) (e : Py Figure Heap)
  : Py Figure Heap * outcome (string * list string) :=
  match rt_pc t with
  | AwaitRedirect => run_to_completion (rt_code t) e
  | AwaitUserCode => run_from_user (rt_code t) e
  | AwaitGetvalue => run_from_getvalue e
  | AwaitFigures => run_from_figures (output c) e
  end.

(** The loader is suspended at the await that [ev] rejects with [m]. *)
Definition load_rejected (ev : Event) (m : string) (w : World) : Prop :=
  (ev = LoadPyodideSettled (Rejected m) /\ init w = AwaitLoadPyodide) \/
  (ev = LoadPackageSettled (Rejected m) /\ init w = AwaitLoadPackage) \/
  (ev = ConfigureSettled (Rejected m) /\ init w = AwaitConfigure).

(** *** State predicates *)

(** [initPyodide] has not finished, or has failed: the header shows
    [label], there is no interpreter reference and no run. *)
Definition loader_at (label : string) (w : World) : Prop :=
  isLoading (ui w) = true /\ status (ui w) = label /\
  pyodide (ui w) = None /\ isRunning (ui w) = false /\ runs w = [].

(** [initPyodide] has finished and stored the reference to [e]. *)
Definition loaded (e : Py Figure Heap) (w : World) : Prop :=
  isLoading (ui w) = false /\ pyodide (ui w) = Some interpreter_ref /\
  interp w = Some e /\ init w = InitSettled.

(** Loaded, and no call of [runPython] is suspended. *)
Definition idle (e : Py Figure Heap) (w : World) : Prop :=
  loaded e w /\ isRunning (ui w) = false /\ runs w = [].

(** What the component shows while the call [t] is suspended: no plots,
    and either the text of line 67 or, once line 80 has run, the text this
    call read from the buffer. *)
Definition in_flight_result (t : RunTask) (e : Py Figure Heap)
    (c : Component) : Prop :=
  plots c = [] /\
  match rt_pc t with
  | AwaitFigures =>
      exists stdout, py_getvalue e = Returned stdout /\
                     output c = js_or stdout "Execution completed"
  | _ => output c = "Running..."
  end.

(** Loaded, and exactly the call [t] is suspended. *)
Definition running (t : RunTask) (e : Py Figure Heap) (w : World) : Prop :=
  loaded e w /\ isRunning (ui w) = true /\ runs w = [t] /\
  in_flight_result t e (ui w).

(** Loaded, and exactly the call [t] is suspended, when callbacks may have
    run since the last settlement: the text shown after line 80 is a text
    read from the buffer or the placeholder, but the buffer may have been
    written to since. *)
Definition suspended (t : RunTask) (e : Py Figure Heap) (w : World) : Prop :=
  loaded e w /\ isRunning (ui w) = true /\ runs w = [t] /\
  plots (ui w) = [] /\
  match rt_pc t with
  | AwaitFigures =>
      exists stdout, output (ui w) = js_or stdout "Execution completed"
  | _ => output (ui w) = "Running..."
  end.

(** A run started by a click is in flight with exactly [n] awaits left, or
    it has ended early in the catch block. *)
Definition run_at (n : nat) (w : World) : Prop :=
  (exists t e, suspended t e w /\ awaits_left (rt_pc t) = n) \/
  (exists e m, idle e w /\ result (ui w) = ("Error: " ++ m, [])).

(** The same for a run of [code], with no figure open. *)
Definition quiet_run_at (code : string) (n : nat) (w : World) : Prop :=
  (exists t e, suspended t e w /\ awaits_left (rt_pc t) = n /\
               rt_code t = code /\ figs e = []) \/
  (exists e m, idle e w /\ result (ui w) = ("Error: " ++ m, [])).

(** The invariant of the session. *)
Definition inv (w : World) : Prop :=
  currentCode (ui w) <> "" /\
  match init w with
  | NotStarted => loader_at "Initializing..." w /\ interp w = None
  | AwaitLoadPyodide =>
      loader_at "Loading Python environment..." w /\ interp w = None
  | AwaitLoadPackage =>
      loader_at "Loading NumPy and Matplotlib..." w /\ interp w = Some py_fresh
  | AwaitConfigure =>
      loader_at "Configuring plotting..." w /\ interp w = Some py_fresh
  | InitSettled =>
      (exists m, loader_at ("Error: " ++ m) w) \/
      (exists e, idle e w) \/
      (exists t e, running t e w)
  end.

End Session.

Arguments World : clear implicits.

(** ** A small interpreter instance

    An instance of the interface for the examples: figures are strings (what
    was drawn), there is no other state, and the instance knows what a few
    source texts do when Python runs them.  Every other text does nothing.
    As in the interpreter, the open figures are listed by ascending figure
    number: of the figures that [plt.figure(2); plt.figure(1)] creates, the
    one numbered 1 comes first. *)

Definition demo_write (text : string) (e : Py string unit) : Py string unit :=
  match sys_stdout e with
  | StringIO s =>
      {| sys_stdout := StringIO (s ++ text); figs := figs e;
         name_sys := name_sys e; name_plt := name_plt e; heap := heap e |}
  | Console => e
  end.

Definition demo_figure (drawing : string) (e : Py string unit) : Py string unit :=
  {| sys_stdout := sys_stdout e; figs := (figs e ++ [drawing])%list;
     name_sys := name_sys e; name_plt := name_plt e; heap := heap e |}.

Definition demo_exec (code : string) (e : Py string unit)
  : Py string unit * outcome unit :=
  if String.eqb code "print(1+1)" then
    (demo_write ("2" ++ newline) e, Returned tt)
  else if String.eqb code "print('ok')" then
    (demo_write ("ok" ++ newline) e, Returned tt)
  else if String.eqb code "plt.figure()" then
    (demo_figure "first" e, Returned tt)
  else if String.eqb code "plt.figure(); plt.figure()" then
    (demo_figure "second" (demo_figure "first" e), Returned tt)
  else if String.eqb code "plt.figure(2); plt.figure(1)" then
    (demo_figure "number 2" (demo_figure "number 1" e), Returned tt)
  else if String.eqb code "raise ValueError('x')" then
    (e, Raised "ValueError: x")
  else if String.eqb code "print('a'); raise ValueError('x')" then
    (demo_write ("a" ++ newline) e, Raised "ValueError: x")
  else if String.eqb code "plt.figure(); raise ValueError('x')" then
    (demo_figure "first" e, Raised "ValueError: x")
  else (e, Returned tt).

#[export] Instance demo_pyodide : Pyodide string unit := {
  heap0 := tt;
  exec := demo_exec;
  savefig := fun fig _ => Returned ("png " ++ fig);
  b64encode := fun buf => "base64 " ++ buf;
  getvalue_error := fun _ => "AttributeError: getvalue";
  plt_error := fun _ => "NameError: plt";
  bind_redirect := fun h => h;
  bind_imports := fun h => h;
  bind_figure := fun _ h => h;
  bind_saved := fun _ _ h => h;
  callbacks := fun e => e
}.

(** The session right after a successful load. *)
Definition demo_ready : World string unit :=
  run_events [Mount; LoadPyodideSettled Fulfilled; LoadPackageSettled Fulfilled;
              ConfigureSettled Fulfilled] initial.

(** Its interpreter. *)
Definition demo_py : Py string unit := py_configure py_fresh.

(** The same session with [code] typed into the editor. *)
Definition demo_with (code : string) : World string unit :=
  step (EditorChange (Some code)) demo_ready.

(** ** What the component renders *)

(** A non-negative integer inside a template literal: its decimal digits. *)
Definition decimal (n : nat) : string :=
  NilEmpty.string_of_uint (Nat.to_uint n).

Inductive Icon : Type := Loader2 | Play.

(** Lines 120-140: the right side of the header. *)
Inductive Header : Type :=
| StatusLine (icon : Icon) (text : string)
| RunButton (disabled : bool) (icon : Icon) (label : string).

(** Lines 181-190: one plot. *)
Record Img : Type := {
  key : nat;
  src : string;
  alt : string
}.

(** The parts of the page that depend on the state: the header, the
    [pre] of the output area if there is one, and the images of the plot
    area if there is one. *)
Record View : Type := {
  header : Header;
  output_area : option string;
  plot_area : option (list Img)
}.

(** Lines 121-139. *)
Definition render_header (c : Component) : Header :=
  if isLoading c then StatusLine Loader2 (status c)
  else RunButton (isRunning c)
         (if isRunning c then Loader2 else Play)
         (if isRunning c then "Running..." else "Run").

(** Lines 180-191: the callback of [plots.map]. *)
Definition render_plot (index : nat) (plot : string) : Img :=
  {| key := index;
     src := "data:image/png;base64," ++ plot;
     alt := "Plot " ++ decimal (index + 1) |}.

(** Lines 111-204. *)
Definition render (c : Component) : View :=
  {| header := render_header c;
     output_area := if truthy (output c) then Some (output c) else None;
     plot_area :=
       if Nat.ltb 0 (length (plots c)) then Some (imap render_plot (plots c))
       else None |}.

(** ** Sequences of events *)

(** The editor reports the values [vs], one after the other. *)
Definition edits (vs : list (option string)) : list Event :=
  map EditorChange vs.

(** The stored code after the editor has reported [vs]: the last truthy
    value, or the code there was. *)
Definition edited (vs : list (option string)) (code : string) : string :=
  fold_left (fun c v => if truthy_opt v then default c v else c) vs code.

(** The stored code after the events [evs]: only the editor's reports
    count (line 107 is the only call of [setCurrentCode]). *)
Definition code_after (evs : list Event) (code : string) : string :=
  fold_left (fun c ev =>
               match ev with
               | EditorChange v => if truthy_opt v then default c v else c
               | _ => c
               end) evs code.

(** The edges of the phase graph. *)
Definition phase_edge (p q : SessionPhase) : Prop :=
  match p, q with
  | Uninitialized, Loading _ => True
  | Loading _, Loading _ => True
  | Loading _, Ready => True
  | Loading _, Failed _ => True
  | Ready, Running => True
  | Running, Ready => True
  | _, _ => False
  end.

(** ** A second small interpreter

    In this one [savefig] raises for the figure [broken], as it does for a
    figure whose text cannot be laid out, and a source text can unbind
    [plt].  It is passed explicitly where it is used. *)

Definition picky_exec (code : string) (e : Py string unit)
  : Py string unit * outcome unit :=
  if String.eqb code "plt.figure(); plt.figure(); plt.title(r'$\frac{1}$')" then
    (demo_figure "broken" (demo_figure "fine" e), Returned tt)
  else if String.eqb code "print('ok')" then
    (demo_write ("ok" ++ newline) e, Returned tt)
  else if String.eqb code "print(1+1)" then
    (demo_write ("2" ++ newline) e, Returned tt)
  else if String.eqb code "plt.figure(); sys.stdout = sys.__stdout__" then
    ({| sys_stdout := Console; figs := (figs e ++ ["fine"])%list;
        name_sys := name_sys e; name_plt := name_plt e; heap := heap e |},
     Returned tt)
  else if String.eqb code "del plt" then
    ({| sys_stdout := sys_stdout e; figs := figs e; name_sys := name_sys e;
        name_plt := false; heap := heap e |}, Returned tt)
  else (e, Returned tt).

Definition picky_pyodide : Pyodide string unit :=
  {| heap0 := tt;
     exec := picky_exec;
     savefig := fun fig _ =>
       if String.eqb fig "broken" then Raised "ValueError: mathtext"
       else Returned ("png " ++ fig);
     b64encode := fun buf => "base64 " ++ buf;
     getvalue_error := fun _ => "AttributeError: getvalue";
     plt_error := fun _ => "NameError: plt";
     bind_redirect := fun h => h;
     bind_imports := fun h => h;
     bind_figure := fun _ h => h;
     bind_saved := fun _ _ h => h;
     callbacks := fun e => e |}.

(** ** A third small interpreter

    In this one a source text can leave a timer on the event loop whose
    callback opens a figure; the heap is the list of the figures such
    callbacks will open when they run. *)

Definition timer_exec (code : string) (e : Py string (list string))
  : Py string (list string) * outcome unit :=
  if String.eqb code
       "import asyncio; asyncio.get_event_loop().call_later(1, plt.figure)" then
    ({| sys_stdout := sys_stdout e; figs := figs e; name_sys := name_sys e;
        name_plt := name_plt e; heap := (heap e ++ ["later"])%list |}, Returned tt)
  else if String.eqb code "print('ok')" then
    ({| sys_stdout := match sys_stdout e with
                      | StringIO s => StringIO (s ++ "ok" ++ newline)
                      | Console => Console
                      end;
        figs := figs e; name_sys := name_sys e; name_plt := name_plt e;
        heap := heap e |}, Returned tt)
  else (e, Returned tt).

Definition timer_pyodide : Pyodide string (list string) :=
  {| heap0 := [];
     exec := timer_exec;
     savefig := fun fig _ => Returned ("png " ++ fig);
     b64encode := fun buf => "base64 " ++ buf;
     getvalue_error := fun _ => "AttributeError: getvalue";
     plt_error := fun _ => "NameError: plt";
     bind_redirect := fun h => h;
     bind_imports := fun h => h;
     bind_figure := fun _ h => h;
     bind_saved := fun _ _ h => h;
     callbacks := fun e =>
       {| sys_stdout := sys_stdout e; figs := (figs e ++ heap e)%list;
          name_sys := name_sys e; name_plt := name_plt e; heap := [] |} |}.

(** The session of the third interpreter right after a successful load,
    with [code] typed into the editor. *)
Definition timer_with (code : string) : World string (list string) :=
  run_events (Pyodide0 := timer_pyodide)
    [Mount; LoadPyodideSettled Fulfilled; LoadPackageSettled Fulfilled;
     ConfigureSettled Fulfilled; EditorChange (Some code)] initial.

(** The session of the second interpreter right after a successful load,
    with [code] typed into the editor. *)
Definition picky_with (code : string) : World string unit :=
  run_events (Pyodide0 := picky_pyodide)
    [Mount; LoadPyodideSettled Fulfilled; LoadPackageSettled Fulfilled;
     ConfigureSettled Fulfilled; EditorChange (Some code)] initial.

Section Progress.
Context {Figure Heap : Type} `{!Pyodide Figure Heap}.


End Progress.

(** * Properties *)

Section Properties.
Context {Figure Heap : Type} `{!Pyodide Figure Heap}.

Implicit Types (w : World Figure Heap) (e : Py Figure Heap) (t : RunTask) (c : Component).

(** ** Strings *)

Lemma js_or_truthy (a b : string) : truthy b = true -> truthy (js_or a b) = true.
Proof. intros Hb. unfold js_or. destruct (truthy a) eqn:Ha; congruence. Qed.

Lemma js_or_empty (b : string) : js_or "" b = b.
Proof. reflexivity. Qed.


Lemma truthy_nonempty (s : string) : truthy s = true <-> s <> "".
Proof. destruct s; simpl; split; congruence. Qed.

Lemma strip_prefix_app (p s : string) : strip_prefix p (p ++ s) = Some s.
Proof.
  induction p as [|a p IH]; simpl; [reflexivity|].
  rewrite Ascii.eqb_refl. exact IH.
Qed.

(** ** Phases of the predicates *)

Lemma phase_loader_error (m : string) w :
  loader_at ("Error: " ++ m) w -> phase (ui w) = Failed m.
Proof.
  intros (Hl & Hs & _). unfold phase. rewrite Hl, Hs.
  rewrite strip_prefix_app. reflexivity.
Qed.

Lemma phase_idle e w : idle e w -> phase (ui w) = Ready.
Proof. intros ((Hl & _) & Hr & _). unfold phase. rewrite Hl, Hr. reflexivity. Qed.

Lemma phase_running t e w : running t e w -> phase (ui w) = Running.
Proof. intros ((Hl & _) & Hr & _). unfold phase. rewrite Hl, Hr. reflexivity. Qed.

(** ** The invariant *)

Lemma inv_initial : inv (initial (Figure := Figure) (Heap := Heap)).
Proof. unfold inv, loader_at; simpl. repeat split; discriminate. Qed.

Ltac unfold_state :=
  unfold inv, loader_at, idle, running, loaded, in_flight_result in *.

Lemma inv_initPyodide w : inv w -> inv (initPyodide w).
Proof.
  intros Hinv. unfold initPyodide.
  destruct (init w) eqn:Hi; try exact Hinv.
  unfold_state. rewrite Hi in Hinv. simpl. tauto.
Qed.

Lemma inv_initPyodide_catch m w :
  currentCode (ui w) <> "" -> (exists l, loader_at l w) ->
  inv (initPyodide_catch m w).
Proof.
  intros Hc [l Hl]. unfold_state. simpl. split; [exact Hc|].
  left. exists m. tauto.
Qed.

Lemma inv_loadPyodide_settled r w : inv w -> inv (loadPyodide_settled r w).
Proof.
  intros Hinv. unfold loadPyodide_settled.
  destruct (init w) eqn:Hi; try exact Hinv.
  destruct Hinv as [Hc Hs]. rewrite Hi in Hs. destruct r.
  - unfold_state. simpl. tauto.
  - apply inv_initPyodide_catch; [exact Hc|]. eexists. apply Hs.
Qed.

Lemma inv_loadPackage_settled r w : inv w -> inv (loadPackage_settled r w).
Proof.
  intros Hinv. unfold loadPackage_settled.
  destruct (init w) eqn:Hi; try exact Hinv.
  destruct Hinv as [Hc Hs]. rewrite Hi in Hs. destruct r.
  - unfold_state. simpl. tauto.
  - apply inv_initPyodide_catch; [exact Hc|]. eexists. apply Hs.
Qed.

Lemma inv_configure_settled r w : inv w -> inv (configure_settled r w).
Proof.
  intros Hinv. unfold configure_settled.
  destruct (init w) eqn:Hi; try exact Hinv.
  destruct Hinv as [Hc Hs]. rewrite Hi in Hs. destruct r.
  - destruct Hs as [Hl He]. unfold_state. simpl. rewrite He. simpl.
    split; [exact Hc|]. right. left. exists (py_configure py_fresh). tauto.
  - apply inv_initPyodide_catch; [exact Hc|]. eexists. apply Hs.
Qed.

Lemma inv_handleEditorChange v w : inv w -> inv (handleEditorChange v w).
Proof.
  intros Hinv. unfold handleEditorChange.
  destruct v as [v|]; [|exact Hinv].
  destruct (truthy v) eqn:Hv; [|exact Hinv].
  destruct Hinv as [_ Hs]. split.
  - simpl. apply truthy_nonempty. exact Hv.
  - exact Hs.
Qed.

(** An idle session admits the click: [runPython] starts one call. *)
Lemma idle_onClick e w :
  idle e w ->
  running {| rt_code := currentCode (ui w); rt_pc := AwaitRedirect |} e (onClick w).
Proof.
  intros ((Hl & Hp & He & Hi) & Hr & Hruns).
  unfold onClick, runPython. rewrite Hl, Hr, Hp.
  unfold_state. simpl. rewrite Hruns. simpl. tauto.
Qed.

(** While a call is suspended, or while the header shows the loader, the
    click does nothing. *)
Lemma busy_onClick w :
  isLoading (ui w) = true \/ isRunning (ui w) = true -> onClick w = w.
Proof.
  unfold onClick. intros [H|H]; rewrite H; [reflexivity|].
  destruct (isLoading (ui w)); reflexivity.
Qed.

Lemma inv_onClick w : inv w -> inv (onClick w).
Proof.
  intros Hinv.
  destruct (isLoading (ui w)) eqn:Hl; [rewrite busy_onClick; auto|].
  destruct (isRunning (ui w)) eqn:Hr; [rewrite busy_onClick; auto|].
  destruct Hinv as [Hc Hs]. unfold inv.
  assert (Hcode : currentCode (ui (onClick w)) = currentCode (ui w)).
  { unfold onClick, runPython. rewrite Hl, Hr. destruct (pyodide (ui w)); reflexivity. }
  assert (Hinit : init (onClick w) = init w).
  { unfold onClick, runPython. rewrite Hl, Hr. destruct (pyodide (ui w)); reflexivity. }
  rewrite Hcode, Hinit. split; [exact Hc|].
  destruct (init w); try (unfold loader_at in Hs; destruct Hs as [(? & _) _]; congruence).
  destruct Hs as [[m Hm] | [[e He] | (t & e & Ht)]].
  - destruct Hm as (? & _). congruence.
  - right. right. eexists _, e. apply idle_onClick. exact He.
  - destruct Ht as (_ & ? & _). congruence.
Qed.

(** Only the one suspended call can be resumed. *)
Lemma running_lookup t e w i t' :
  running t e w -> runs w !! i = Some t' -> i = 0 /\ t' = t.
Proof.
  intros (_ & _ & Hruns & _) Hlk. rewrite Hruns in Hlk.
  destruct i as [|i]; simpl in Hlk; [split; congruence | discriminate].
Qed.

Lemma no_run_resume i w : runs w = [] -> runPython_resume i w = w.
Proof. intros Hruns. unfold runPython_resume. rewrite Hruns. reflexivity. Qed.

(** One resumption of the suspended call either suspends it again, with
    the rest of the run unchanged, or ends it, and then the component shows
    the outcome of the run. *)
Lemma running_resume t e w :
  running t e w ->
  (exists pc e',
      running {| rt_code := rt_code t; rt_pc := pc |} e' (runPython_resume 0 w) /\
      pending {| rt_code := rt_code t; rt_pc := pc |}
        (ui (runPython_resume 0 w)) e' = pending t (ui w) e) \/
  (exists e',
      idle e' (runPython_resume 0 w) /\
      fst (pending t (ui w) e) = e' /\
      result (ui (runPython_resume 0 w)) = shown (snd (pending t (ui w) e))).
Proof.
  intros Hrun. pose proof Hrun as ((Hl & Hp & He & Hi) & Hr & Hruns & Hpl & Hout).
  unfold runPython_resume, pending. rewrite Hruns, He. simpl.
  destruct (rt_pc t) eqn:Hpc.
  - left. exists AwaitUserCode, (py_redirect e). split; [|reflexivity].
    unfold_state. simpl. rewrite Hruns. simpl. tauto.
  - unfold run_from_user.
    destruct (exec (rt_code t) e) as [e' [[]|m]] eqn:Hex.
    + left. exists AwaitGetvalue, e'. split; [|reflexivity].
      unfold_state. simpl. rewrite Hruns. simpl. tauto.
    + right. exists e'. unfold_state; unfold result. simpl. rewrite Hruns, Hpl. simpl. tauto.
  - unfold run_from_getvalue.
    destruct (py_getvalue e) as [stdout|m] eqn:Hget.
    + left. exists AwaitFigures, e. split; [|reflexivity].
      unfold_state. simpl. rewrite Hruns. simpl.
      repeat split; try assumption. exists stdout. split; [exact Hget | reflexivity].
    + right. exists e. unfold_state; unfold result. simpl. rewrite Hruns, Hpl. simpl. tauto.
  - unfold run_from_figures.
    destruct (py_figures e) as [e' [figures|m]] eqn:Hfig.
    + right. exists e'. unfold_state; unfold result. simpl. rewrite Hruns. simpl. tauto.
    + right. exists e'. unfold_state; unfold result. simpl. rewrite Hruns, Hpl. simpl. tauto.
Qed.

Lemma resume_keeps i w :
  currentCode (ui (runPython_resume i w)) = currentCode (ui w) /\
  init (runPython_resume i w) = init w.
Proof.
  unfold runPython_resume.
  destruct (runs w !! i) as [t|]; [|split; reflexivity].
  destruct (interp w) as [e|]; [|split; reflexivity].
  destruct (rt_pc t).
  - split; reflexivity.
  - destruct (exec (rt_code t) e) as [e' [[]|m]]; split; reflexivity.
  - destruct (py_getvalue e); split; reflexivity.
  - destruct (py_figures e) as [e' [figures|m]]; split; reflexivity.
Qed.

Lemma inv_runPython_resume i w : inv w -> inv (runPython_resume i w).
Proof.
  intros Hinv.
  destruct (runs w !! i) as [t'|] eqn:Hlk.
  2:{ unfold runPython_resume. rewrite Hlk. exact Hinv. }
  destruct Hinv as [Hc Hs]. unfold inv.
  destruct (resume_keeps i w) as [-> ->]. split; [exact Hc|].
  destruct (init w);
    try (destruct Hs as [(_ & _ & _ & _ & Hruns) _]; rewrite Hruns in Hlk; discriminate).
  destruct Hs as [[m Hm] | [[e He] | (t & e & Ht)]].
  - destruct Hm as (_ & _ & _ & _ & Hruns). rewrite Hruns in Hlk. discriminate.
  - destruct He as (_ & _ & Hruns). rewrite Hruns in Hlk. discriminate.
  - destruct (running_lookup _ _ _ _ _ Ht Hlk) as [-> ->].
    destruct (running_resume _ _ _ Ht) as [(pc & e' & H' & _) | (e' & H' & _)].
    + right. right. eauto.
    + right. left. eauto.
Qed.

Lemma inv_step ev w : inv w -> inv (step ev w).
Proof.
  destruct ev; simpl.
  - apply inv_initPyodide.
  - apply inv_loadPyodide_settled.
  - apply inv_loadPackage_settled.
  - apply inv_configure_settled.
  - apply inv_onClick.
  - apply inv_handleEditorChange.
  - apply inv_runPython_resume.
Qed.

Lemma reachable_inv w : reachable w -> inv w.
Proof.
  induction 1 as [|ev w _ IH]; [apply inv_initial | apply inv_step, IH].
Qed.

Lemma reachable_run_events evs w : reachable w -> reachable (run_events evs w).
Proof.
  revert w. induction evs as [|ev evs IH]; intros w Hw; simpl; [exact Hw|].
  apply IH. constructor. exact Hw.
Qed.

Lemma inv_run_events evs w : inv w -> inv (run_events evs w).
Proof.
  revert w. induction evs as [|ev evs IH]; intros w Hw; simpl; [exact Hw|].
  apply IH, inv_step, Hw.
Qed.


(** Every state of the session is of one of four kinds. *)
Lemma inv_cases w :
  inv w ->
  (exists l, loader_at l w /\ init w <> InitSettled) \/
  (exists m, loader_at ("Error: " ++ m) w /\ init w = InitSettled) \/
  (exists e, idle e w) \/ (exists t e, running t e w).
Proof.
  intros [_ Hs]. destruct (init w) eqn:Hi;
    try (left; eexists; split; [apply Hs | discriminate]).
  destruct Hs as [[m Hm] | [He | Ht]]; eauto.
Qed.

(** ** Events that are not the awaited one *)

Lemma settled_initPyodide w : init w = InitSettled -> initPyodide w = w.
Proof. unfold initPyodide. intros ->. reflexivity. Qed.

Lemma settled_loader_events r w :
  init w = InitSettled ->
  loadPyodide_settled r w = w /\ loadPackage_settled r w = w /\
  configure_settled r w = w.
Proof.
  unfold loadPyodide_settled, loadPackage_settled, configure_settled.
  intros ->. repeat split.
Qed.

(** While a call is suspended, every event other than the settlement it
    awaits leaves the call, the result shown and the rest of the run as
    they are. *)
Lemma running_other_event t e w ev :
  running t e w -> ev <> RunSettled 0 ->
  running t e (step ev w) /\
  result (ui (step ev w)) = result (ui w) /\
  pending t (ui (step ev w)) e = pending t (ui w) e.
Proof.
  intros Hrun Hev. pose proof Hrun as ((Hl & Hp & He & Hi) & Hr & Hruns & Hout).
  destruct ev as [|r|r|r| |v|i]; simpl.
  - rewrite settled_initPyodide by exact Hi. auto.
  - destruct (settled_loader_events r w Hi) as (-> & _). auto.
  - destruct (settled_loader_events r w Hi) as (_ & -> & _). auto.
  - destruct (settled_loader_events r w Hi) as (_ & _ & ->). auto.
  - rewrite busy_onClick by (right; exact Hr). auto.
  - unfold handleEditorChange. destruct v as [v|]; [|auto].
    destruct (truthy v); [|auto]. split; [|split; reflexivity].
    unfold_state. simpl. tauto.
  - destruct i as [|i]; [congruence|].
    unfold runPython_resume. rewrite Hruns. simpl. auto.
Qed.

(** While no call is suspended, every event other than a click leaves the
    session idle with the same interpreter and the same result shown. *)
Lemma idle_other_event e w ev :
  idle e w -> ev <> ClickRun ->
  idle e (step ev w) /\ result (ui (step ev w)) = result (ui w).
Proof.
  intros Hidle Hev. pose proof Hidle as ((Hl & Hp & He & Hi) & Hr & Hruns).
  destruct ev as [|r|r|r| |v|i]; simpl.
  - rewrite settled_initPyodide by exact Hi. auto.
  - destruct (settled_loader_events r w Hi) as (-> & _). auto.
  - destruct (settled_loader_events r w Hi) as (_ & -> & _). auto.
  - destruct (settled_loader_events r w Hi) as (_ & _ & ->). auto.
  - congruence.
  - unfold handleEditorChange. destruct v as [v|]; [|auto].
    destruct (truthy v); [|auto]. split; [|reflexivity].
    unfold_state. simpl. tauto.
  - rewrite no_run_resume by exact Hruns. auto.
Qed.

(** After a failed load no event changes anything but the editor's text. *)
Lemma failed_event m w ev :
  loader_at ("Error: " ++ m) w -> init w = InitSettled ->
  loader_at ("Error: " ++ m) (step ev w) /\ init (step ev w) = InitSettled /\
  interp (step ev w) = interp w.
Proof.
  intros Hload Hi. pose proof Hload as (Hl & Hs & Hp & Hr & Hruns).
  destruct ev as [|r|r|r| |v|i]; simpl.
  - rewrite settled_initPyodide by exact Hi. auto.
  - destruct (settled_loader_events r w Hi) as (-> & _). auto.
  - destruct (settled_loader_events r w Hi) as (_ & -> & _). auto.
  - destruct (settled_loader_events r w Hi) as (_ & _ & ->). auto.
  - rewrite busy_onClick by (left; exact Hl). auto.
  - unfold handleEditorChange. destruct v as [v|]; [|auto].
    destruct (truthy v); [|auto]. split; [|split; [exact Hi | reflexivity]].
    unfold_state. simpl. tauto.
  - rewrite no_run_resume by exact Hruns. auto.
Qed.

Lemma failed_run_events m evs w :
  loader_at ("Error: " ++ m) w -> init w = InitSettled ->
  loader_at ("Error: " ++ m) (run_events evs w) /\
  init (run_events evs w) = InitSettled /\
  interp (run_events evs w) = interp w.
Proof.
  revert w. induction evs as [|ev evs IH]; intros w Hload Hi; simpl; [auto|].
  destruct (failed_event m w ev Hload Hi) as (Hload' & Hi' & He').
  destruct (IH _ Hload' Hi') as (? & ? & ?).
  split; [assumption | split; [assumption | congruence]].
Qed.

(** ** A whole run *)

(** A click on an idle session followed by the settlements of its awaits,
    as one equation: the interpreter and the result are those the try
    block read sequentially gives, and nothing else changes. *)
Lemma idle_submit_eq e w :
  idle e w ->
  let r := run_to_completion (currentCode (ui w)) e in
  submit w =
  {| ui := {| output := fst (shown (snd r)); plots := snd (shown (snd r));
              isLoading := isLoading (ui w); isRunning := false;
              pyodide := pyodide (ui w); status := status (ui w);
              currentCode := currentCode (ui w) |};
     interp := Some (fst r); init := init w; runs := [] |}.
Proof.
  intros ((Hl & Hp & He & Hi) & Hr & Hruns).
  unfold submit, run_events, run_to_completion, run_from_user; simpl.
  unfold onClick, runPython. rewrite Hl, Hr, Hp, Hruns. simpl.
  unfold runPython_resume at 4. simpl. rewrite He.
  unfold run_suspend; simpl.
  unfold runPython_resume at 3. simpl.
  destruct (exec (currentCode (ui w)) (py_redirect e)) as [e2 [[]|m]] eqn:Hex; simpl.
  2:{ rewrite !no_run_resume by reflexivity.
      unfold run_catch, setIsRunning, setOutput, setPlots; simpl;
      rewrite ?Hl, ?Hp; reflexivity. }
  unfold run_suspend; simpl.
  unfold runPython_resume at 2. simpl. unfold run_from_getvalue.
  destruct (py_getvalue e2) as [stdout|m] eqn:Hget; simpl.
  2:{ rewrite !no_run_resume by reflexivity.
      unfold run_catch, setIsRunning, setOutput, setPlots; simpl;
      rewrite ?Hl, ?Hp; reflexivity. }
  unfold run_suspend; simpl.
  unfold runPython_resume. simpl. unfold run_from_figures.
  destruct (py_figures e2) as [e3 [figures|m]] eqn:Hfig;
    unfold run_catch, run_return, setIsRunning, setOutput, setPlots; simpl;
    rewrite ?Hl, ?Hp; reflexivity.
Qed.

Lemma idle_submit e w :
  idle e w ->
  let r := run_to_completion (currentCode (ui w)) e in
  idle (fst r) (submit w) /\
  result (ui (submit w)) = shown (snd r) /\
  currentCode (ui (submit w)) = currentCode (ui w).
Proof.
  intros Hidle r. pose proof (idle_submit_eq e w Hidle) as Heq.
  simpl in Heq. fold r in Heq. rewrite Heq.
  destruct Hidle as ((Hl & Hp & He & Hi) & Hr & Hruns).
  unfold_state; unfold result; simpl.
  destruct (shown (snd r)). simpl. tauto.
Qed.

(** ** The figure snippet *)

Lemma save_figures_returned fs h acc rest h' figures :
  save_figures fs h acc = (rest, h', Returned figures) ->
  rest = [] /\
  exists imgs, figures = (acc ++ imgs)%list /\
    Forall2 (fun fig img => exists buf,
               savefig fig png_options = Returned buf /\ img = b64encode buf)
            fs imgs.
Proof.
  revert h acc. induction fs as [|fig fs IH]; intros h acc Hs; simpl in Hs.
  - inversion Hs; subst. split; [reflexivity|].
    exists []. rewrite app_nil_r. split; [reflexivity | constructor].
  - destruct (savefig fig png_options) as [buf|m] eqn:Hsave; [|discriminate].
    destruct (IH _ _ Hs) as (-> & imgs & -> & Hall). split; [reflexivity|].
    exists (b64encode buf :: imgs). rewrite <- app_assoc. split; [reflexivity|].
    constructor; [eauto | exact Hall].
Qed.

Lemma py_figures_keeps e :
  sys_stdout (fst (py_figures e)) = sys_stdout e /\
  name_sys (fst (py_figures e)) = name_sys e /\
  name_plt (fst (py_figures e)) = name_plt e.
Proof.
  unfold py_figures. destruct (name_plt e) eqn:Hplt; [|simpl; auto].
  destruct (save_figures (figs e) (bind_imports (heap e)) []) as [[rest h] r].
  simpl. auto.
Qed.

(** When the figure snippet returns, its value has one image per figure
    that was open, in the order of [figs], and no figure is open. *)
Lemma py_figures_returned e e' figures :
  py_figures e = (e', Returned figures) ->
  figs e' = [] /\
  Forall2 (fun fig img => exists buf,
             savefig fig png_options = Returned buf /\ img = b64encode buf)
          (figs e) figures.
Proof.
  unfold py_figures. destruct (name_plt e); [|discriminate].
  destruct (save_figures (figs e) (bind_imports (heap e)) []) as [[rest h] r] eqn:Hs.
  intros Heq. inversion Heq; subst.
  destruct (save_figures_returned _ _ _ _ _ _ Hs) as (-> & imgs & -> & Hall).
  split; [reflexivity | exact Hall].
Qed.

(** With no figure open the figure snippet cannot return an image. *)
Lemma py_figures_none e :
  figs e = [] -> forall figures, snd (py_figures e) = Returned figures -> figures = [].
Proof.
  intros Hf figures. unfold py_figures. rewrite Hf.
  destruct (name_plt e); simpl; [|discriminate]. congruence.
Qed.

(** ** What a run leaves in the interpreter, and what it returns *)

Lemma run_from_figures_spec text e :
  sys_stdout (fst (run_from_figures text e)) = sys_stdout e /\
  (forall p, snd (run_from_figures text e) = Returned p ->
     figs (fst (run_from_figures text e)) = [] /\
     fst p = text /\
     Forall2 (fun fig img => exists buf,
                savefig fig png_options = Returned buf /\ img = b64encode buf)
             (figs e) (snd p)).
Proof.
  unfold run_from_figures. pose proof (py_figures_keeps e) as (Hk & _).
  destruct (py_figures e) as [e' [figures|m]] eqn:Hfig; simpl in *.
  - split; [exact Hk|]. intros p Hp. inversion Hp; subst. simpl.
    destruct (py_figures_returned _ _ _ Hfig). auto.
  - split; [exact Hk | discriminate].
Qed.

Lemma run_from_getvalue_spec e :
  sys_stdout (fst (run_from_getvalue e)) = sys_stdout e /\
  (forall p, snd (run_from_getvalue e) = Returned p ->
     figs (fst (run_from_getvalue e)) = [] /\
     (exists stdout, py_getvalue e = Returned stdout /\
                     fst p = js_or stdout "Execution completed") /\
     Forall2 (fun fig img => exists buf,
                savefig fig png_options = Returned buf /\ img = b64encode buf)
             (figs e) (snd p)).
Proof.
  unfold run_from_getvalue. destruct (py_getvalue e) as [stdout|m] eqn:Hget.
  - destruct (run_from_figures_spec (js_or stdout "Execution completed") e) as [Hk Hr].
    split; [exact Hk|]. intros p Hp. destruct (Hr p Hp) as (? & ? & ?). eauto.
  - simpl. split; [reflexivity | discriminate].
Qed.

(** The outcome of the try block in terms of the interpreter [user] that
    the user's code leaves. *)
Lemma run_to_completion_spec code e :
  let user := fst (exec code (py_redirect e)) in
  let r := run_to_completion code e in
  sys_stdout (fst r) = sys_stdout user /\
  (forall p, snd r = Returned p ->
     figs (fst r) = [] /\
     (exists stdout, py_getvalue user = Returned stdout /\
                     fst p = js_or stdout "Execution completed") /\
     Forall2 (fun fig img => exists buf,
                savefig fig png_options = Returned buf /\ img = b64encode buf)
             (figs user) (snd p)) /\
  (forall m, snd (exec code (py_redirect e)) = Raised m ->
     r = (user, Raised m)).
Proof.
  unfold run_to_completion, run_from_user.
  destruct (exec code (py_redirect e)) as [e2 [[]|m]] eqn:Hex; simpl.
  - destruct (run_from_getvalue_spec e2) as [Hk Hr].
    split; [exact Hk|]. split; [exact Hr | discriminate].
  - split; [reflexivity|]. split; [discriminate|]. congruence.
Qed.

(** ** Cleanup at the end of a run *)

Lemma edit_idle e w s :
  idle e w -> s <> "" ->
  idle e (step (EditorChange (Some s)) w) /\
  currentCode (ui (step (EditorChange (Some s)) w)) = s.
Proof.
  intros Hidle Hs. split.
  - apply idle_other_event; [exact Hidle | discriminate].
  - simpl. destruct s; [congruence | reflexivity].
Qed.


(** ** Errors raised by a run *)

(** C2, as amended.  When the user's code raises, the error is caught: the
    run ends, the result shown is the message alone ([Error: ] followed by
    it, and no images), whatever the code had written before, and the
    session is idle with the interpreter the code left, so that the next
    click starts a run against it.  The text written before the error is in
    the interpreter's buffer, not in the result. *)
Theorem C2_error_caught_message_only e w e2 m :
  idle e w ->
  exec (currentCode (ui w)) (py_redirect e) = (e2, Raised m) ->
  result (ui (submit w)) = ("Error: " ++ m, []) /\
  idle e2 (submit w) /\
  phase (ui (submit w)) = Ready /\
  running {| rt_code := currentCode (ui w); rt_pc := AwaitRedirect |} e2
    (step ClickRun (submit w)).
Proof.
  intros Hidle Hex.
  destruct (idle_submit e w Hidle) as (Hidle1 & Hres & Hcode).
  destruct (run_to_completion_spec (currentCode (ui w)) e) as (_ & _ & Hraise).
  rewrite Hex in Hraise. specialize (Hraise m eq_refl). simpl in Hraise.
  rewrite Hraise in Hidle1, Hres. simpl in Hidle1, Hres.
  split; [exact Hres|]. split; [exact Hidle1|].
  split; [apply (phase_idle e2), Hidle1|].
  rewrite <- Hcode. apply idle_onClick. exact Hidle1.
Qed.

(** ** Phases *)

Lemma phase_loaded c :
  isLoading c = false -> phase c = Ready \/ phase c = Running.
Proof. unfold phase. intros ->. destruct (isRunning c); auto. Qed.

Lemma phase_loading c :
  isLoading c = true -> phase c <> Ready /\ phase c <> Running.
Proof.
  unfold phase. intros ->. destruct (strip_prefix _ _); [split; discriminate|].
  destruct (String.eqb _ _); split; discriminate.
Qed.

Lemma phase_ready_idle w : inv w -> phase (ui w) = Ready -> exists e, idle e w.
Proof.
  intros Hinv Hph.
  destruct (inv_cases w Hinv) as [(l & (Hl & _) & _) | [(m & (Hl & _) & _) | [He | (t & e & Ht)]]].
  - destruct (phase_loading _ Hl). congruence.
  - destruct (phase_loading _ Hl). congruence.
  - exact He.
  - rewrite (phase_running _ _ _ Ht) in Hph. discriminate.
Qed.

Lemma phase_running_inv w :
  inv w -> phase (ui w) = Running -> exists t e, running t e w.
Proof.
  intros Hinv Hph.
  destruct (inv_cases w Hinv) as [(l & (Hl & _) & _) | [(m & (Hl & _) & _) | [[e He] | Ht]]].
  - destruct (phase_loading _ Hl). congruence.
  - destruct (phase_loading _ Hl). congruence.
  - rewrite (phase_idle _ _ He) in Hph. discriminate.
  - exact Ht.
Qed.

Lemma loaded_cases w :
  inv w -> isLoading (ui w) = false ->
  (exists e, idle e w) \/ (exists t e, running t e w).
Proof.
  intros Hinv Hl.
  destruct (inv_cases w Hinv) as [(l & (Hl' & _) & _) | [(m & (Hl' & _) & _) | [He | Ht]]];
    try congruence; auto.
Qed.

(** Once the interpreter is loaded, the session stays loaded. *)
Lemma loaded_step ev w :
  inv w -> isLoading (ui w) = false -> isLoading (ui (step ev w)) = false.
Proof.
  intros Hinv Hl.
  destruct (loaded_cases w Hinv Hl) as [[e He] | (t & e & Ht)].
  - assert (Hother : ev <> ClickRun -> isLoading (ui (step ev w)) = false).
    { intros Hev. destruct (idle_other_event e w ev He Hev) as (((? & _) & _) & _).
      assumption. }
    destruct ev; try (apply Hother; discriminate).
    simpl. apply idle_onClick in He as ((? & _) & _). assumption.
  - assert (Hother : ev <> RunSettled 0 -> isLoading (ui (step ev w)) = false).
    { intros Hev. destruct (running_other_event t e w ev Ht Hev) as (((? & _) & _) & _).
      assumption. }
    destruct ev as [|r|r|r| |v|[|i]]; try (apply Hother; discriminate).
    simpl.
    destruct (running_resume _ _ _ Ht)
      as [(pc & e' & ((? & _) & _) & _) | (e' & ((? & _) & _) & _)]; assumption.
Qed.

Lemma loaded_run_events evs w :
  inv w -> isLoading (ui w) = false ->
  isLoading (ui (run_events evs w)) = false.
Proof.
  revert w. induction evs as [|ev evs IH]; intros w Hinv Hl; simpl; [exact Hl|].
  apply IH; [apply inv_step, Hinv | apply loaded_step; assumption].
Qed.

(** A step into [Failed] starts in [Loading], or in [Failed] already. *)
Lemma failed_only_from_loading ev w m :
  inv w -> phase (ui (step ev w)) = Failed m ->
  phase (ui w) = Failed m \/ exists l, phase (ui w) = Loading l.
Proof.
  intros Hinv Hph.
  destruct (isLoading (ui w)) eqn:Hl.
  2:{ pose proof (loaded_step ev w Hinv Hl) as Hl'.
      destruct (phase_loaded _ Hl'); congruence. }
  destruct Hinv as [_ Hs]. destruct (init w) eqn:Hi.
  - (* before the mount: the only step that changes the header is [Mount] *)
    exfalso. destruct Hs as [(_ & Hst & Hp & Hr & Hruns) _].
    revert Hph. unfold phase.
    destruct ev as [|r|r|r| |v|i]; simpl;
      unfold initPyodide, loadPyodide_settled, loadPackage_settled,
        configure_settled, handleEditorChange;
      rewrite ?Hi, ?busy_onClick, ?no_run_resume by auto; simpl;
      try (destruct v as [v|]; [destruct (truthy v)|]; simpl);
      rewrite ?Hl, ?Hst; simpl; discriminate.
  - right. destruct Hs as [(_ & Hst & _) _]. unfold phase. rewrite Hl, Hst. simpl. eauto.
  - right. destruct Hs as [(_ & Hst & _) _]. unfold phase. rewrite Hl, Hst. simpl. eauto.
  - right. destruct Hs as [(_ & Hst & _) _]. unfold phase. rewrite Hl, Hst. simpl. eauto.
  - left. destruct Hs as [[m' Hm'] | [[e ((? & _) & _)] | (t & e & ((? & _) & _))]];
      try congruence.
    destruct (failed_event m' w ev Hm' Hi) as (Hm'' & _).
    rewrite (phase_loader_error _ _ Hm'') in Hph.
    rewrite (phase_loader_error _ _ Hm'). exact Hph.
Qed.

Lemma catch_failed l m w :
  loader_at l w ->
  loader_at ("Error: " ++ m) (initPyodide_catch m w) /\
  init (initPyodide_catch m w) = InitSettled.
Proof. intros (? & ? & ? & ? & ?). unfold loader_at. simpl. tauto. Qed.

(** ** The state machine *)


(** C4.  At most one call of [runPython] is suspended at any time, and
    exactly one while the phase is [Running].  In that phase a click on Run
    does nothing (the button is disabled): the state is unchanged, so the
    click is neither queued nor run, and every event other than the
    settlement the call awaits leaves the rest of the run, hence its
    eventual result, as it was. *)
Theorem C4_click_while_running_ignored w :
  reachable w ->
  length (runs w) <= 1 /\
  (phase (ui w) = Running <-> length (runs w) = 1) /\
  (phase (ui w) = Running ->
     step ClickRun w = w /\
     (forall evs, run_events (ClickRun :: evs) w = run_events evs w) /\
     exists t e,
       running t e w /\
       forall ev, ev <> RunSettled 0 ->
         running t e (step ev w) /\
         pending t (ui (step ev w)) e = pending t (ui w) e).
Proof.
  intros Hreach. pose proof (reachable_inv w Hreach) as Hinv.
  assert (Hclick : phase (ui w) = Running -> step ClickRun w = w).
  { intros Hph. destruct (phase_running_inv w Hinv Hph) as (t & e & _ & Hr & _).
    simpl. apply busy_onClick. right. exact Hr. }
  split; [|split; [split|]].
  - destruct (inv_cases w Hinv)
      as [(l & (_ & _ & _ & _ & Hr) & _) | [(m & (_ & _ & _ & _ & Hr) & _)
         | [(e & _ & _ & Hr) | (t & e & _ & _ & Hr & _)]]];
      rewrite Hr; simpl; lia.
  - intros Hph. destruct (phase_running_inv w Hinv Hph) as (t & e & _ & _ & Hr & _).
    rewrite Hr. reflexivity.
  - intros Hlen.
    destruct (inv_cases w Hinv)
      as [(l & (_ & _ & _ & _ & Hr) & _) | [(m & (_ & _ & _ & _ & Hr) & _)
         | [(e & _ & _ & Hr) | (t & e & Ht)]]];
      try (rewrite Hr in Hlen; discriminate).
    eapply phase_running. exact Ht.
  - intros Hph. split; [apply Hclick, Hph|].
    split; [intros evs; simpl; rewrite busy_onClick; [reflexivity|]|].
    + destruct (phase_running_inv w Hinv Hph) as (t & e & _ & Hr & _). right. exact Hr.
    + destruct (phase_running_inv w Hinv Hph) as (t & e & Ht).
      exists t, e. split; [exact Ht|]. intros ev Hev.
      destruct (running_other_event t e w ev Ht Hev) as (? & _ & ?). auto.
Qed.

(** C5.  When one of the loader's awaits rejects, the phase becomes
    [Failed] with the message and no interpreter reference is stored.  No
    sequence of later events changes that: the phase stays [Failed], the
    loader is not started again, no call of [runPython] is ever suspended,
    the interpreter (if one was created) is not touched, and [runPython]
    itself returns at line 64. *)
Theorem C5_load_failure_terminal ev m w :
  reachable w -> load_rejected ev m w ->
  phase (ui (step ev w)) = Failed m /\
  pyodide (ui (step ev w)) = None /\
  forall evs,
    phase (ui (run_events evs (step ev w))) = Failed m /\
    pyodide (ui (run_events evs (step ev w))) = None /\
    init (run_events evs (step ev w)) = InitSettled /\
    runs (run_events evs (step ev w)) = [] /\
    interp (run_events evs (step ev w)) = interp (step ev w) /\
    runPython (run_events evs (step ev w)) = run_events evs (step ev w).
Proof.
  intros Hreach Hrej. pose proof (reachable_inv w Hreach) as [_ Hs].
  assert (Hfailed : loader_at ("Error: " ++ m) (step ev w) /\
                    init (step ev w) = InitSettled).
  { destruct Hrej as [[-> Hi] | [[-> Hi] | [-> Hi]]]; rewrite Hi in Hs;
      destruct Hs as [Hl _]; simpl;
      unfold loadPyodide_settled, loadPackage_settled, configure_settled;
      rewrite Hi; eapply catch_failed; exact Hl. }
  destruct Hfailed as [Hl Hi].
  split; [apply phase_loader_error, Hl|]. split; [apply Hl|].
  intros evs. destruct (failed_run_events m evs _ Hl Hi) as (Hl' & Hi' & He').
  split; [apply phase_loader_error, Hl'|]. split; [apply Hl'|].
  split; [exact Hi'|]. split; [apply Hl'|]. split; [exact He'|].
  unfold runPython. destruct Hl' as (_ & _ & -> & _). reflexivity.
Qed.


(** ** The editor *)

(** C10.  When the editor reports [undefined] or the empty text, nothing
    changes: the stored code is still the last non-empty text, which is
    what the next click runs. *)
Theorem C10_empty_edit_keeps_code w v :
  reachable w -> truthy_opt v = false ->
  step (EditorChange v) w = w /\
  currentCode (ui w) <> "" /\
  (forall s, s <> "" ->
     currentCode (ui (step (EditorChange v) (step (EditorChange (Some s)) w))) = s) /\
  (forall e, idle e w ->
     running {| rt_code := currentCode (ui w); rt_pc := AwaitRedirect |} e
       (step ClickRun (step (EditorChange v) w)) /\
     submit (step (EditorChange v) w) = submit w /\
     interp (submit (step (EditorChange v) w))
     = Some (fst (run_to_completion (currentCode (ui w)) e))).
Proof.
  intros Hreach Hv.
  assert (Hsame : forall w' : World Figure Heap, step (EditorChange v) w' = w').
  { intros w'. simpl. unfold handleEditorChange.
    destruct v as [v|]; [|reflexivity]. simpl in Hv. rewrite Hv. reflexivity. }
  split; [apply Hsame|].
  split; [apply (reachable_inv w Hreach)|].
  split.
  { intros s Hs. rewrite Hsame. simpl. destruct s; [congruence | reflexivity]. }
  intros e He. rewrite Hsame.
  split; [apply idle_onClick, He|]. split; [reflexivity|].
  destruct (idle_submit e w He) as ((( _ & _ & Hi & _) & _) & _). exact Hi.
Qed.

End Properties.

(** * Examples on the small interpreter *)

Lemma demo_with_reachable code : reachable (demo_with code).
Proof. apply reachable_step, reachable_run_events, reachable_initial. Qed.

Lemma demo_with_idle code : idle demo_py (demo_with code).
Proof.
  unfold demo_with. destruct (idle_other_event demo_py demo_ready
    (EditorChange (Some code))) as [H _]; [|discriminate|exact H].
  vm_compute. tauto.
Qed.


(** The claim C2 fails on the code.  The run of a text that prints [a] and
    then raises shows the message alone; the printed text is in the
    interpreter's buffer and nowhere in the result, which is the result of
    the text that raises without printing. *)
Lemma C2_counterexample :
  let wa := submit (demo_with "print('a'); raise ValueError('x')") in
  let wb := submit (demo_with "raise ValueError('x')") in
  result (ui wa) = ("Error: ValueError: x", []) /\
  interp wa = Some {| sys_stdout := StringIO ("a" ++ newline); figs := [];
                      name_sys := true; name_plt := true; heap := tt |} /\
  result (ui wa) = result (ui wb).
Proof. vm_compute. repeat split. Qed.

Lemma C2_error_caught_message_only_witness :
  idle demo_py (demo_with "print('a'); raise ValueError('x')") /\
  result (ui (submit (demo_with "print('a'); raise ValueError('x')")))
  = ("Error: ValueError: x", []) /\
  phase (ui (submit (demo_with "print('a'); raise ValueError('x')"))) = Ready.
Proof.
  pose proof (demo_with_idle "print('a'); raise ValueError('x')") as Hidle.
  destruct (C2_error_caught_message_only (Pyodide0 := demo_pyodide) demo_py
              (demo_with "print('a'); raise ValueError('x')")
              (demo_write ("a" ++ newline) (py_redirect demo_py))
              "ValueError: x" Hidle ltac:(reflexivity))
    as (Hres & _ & Hph & _).
  split; [exact Hidle|]. split; [exact Hres | exact Hph].
Defined.


Lemma C4_click_while_running_ignored_witness :
  reachable (step ClickRun (demo_with "print(1+1)")) /\
  phase (ui (step ClickRun (demo_with "print(1+1)"))) = Running /\
  step ClickRun (step ClickRun (demo_with "print(1+1)"))
  = step ClickRun (demo_with "print(1+1)").
Proof.
  assert (Hreach : reachable (step ClickRun (demo_with "print(1+1)")))
    by apply reachable_step, demo_with_reachable.
  destruct (C4_click_while_running_ignored (Pyodide0 := demo_pyodide) _ Hreach) as (_ & _ & Hrun).
  split; [exact Hreach|]. split; [reflexivity|].
  apply Hrun. reflexivity.
Defined.

Lemma C5_load_failure_terminal_witness :
  let w := run_events [Mount; LoadPyodideSettled Fulfilled]
             (initial (Figure := string) (Heap := unit)) in
  reachable w /\
  load_rejected (LoadPackageSettled (Rejected "network")) "network" w /\
  phase (ui (run_events [ClickRun; EditorChange (Some "print(1+1)"); ClickRun;
                         RunSettled 0; Mount]
               (step (LoadPackageSettled (Rejected "network")) w)))
  = Failed "network".
Proof.
  intros w.
  assert (Hreach : reachable w) by apply reachable_run_events, reachable_initial.
  assert (Hrej : load_rejected (LoadPackageSettled (Rejected "network")) "network" w)
    by (right; left; split; reflexivity).
  destruct (C5_load_failure_terminal (Pyodide0 := demo_pyodide) _ _ _ Hreach Hrej) as (_ & _ & Hevs).
  split; [exact Hreach|]. split; [exact Hrej|].
  apply (Hevs [ClickRun; EditorChange (Some "print(1+1)"); ClickRun;
               RunSettled 0; Mount]).
Defined.


Lemma C10_empty_edit_keeps_code_witness :
  reachable (demo_with "print(1+1)") /\
  truthy_opt (Some "") = false /\
  step (EditorChange (Some "")) (demo_with "print(1+1)") = demo_with "print(1+1)" /\
  result (ui (submit (step (EditorChange (Some "")) (demo_with "print(1+1)"))))
  = ("2" ++ newline, []).
Proof.
  pose proof (demo_with_reachable "print(1+1)") as Hreach.
  destruct (C10_empty_edit_keeps_code (Pyodide0 := demo_pyodide) (demo_with "print(1+1)") (Some "")
              Hreach ltac:(reflexivity)) as (Hsame & _ & _ & Hrun).
  split; [exact Hreach|]. split; [reflexivity|]. split; [exact Hsame|].
  destruct (Hrun demo_py (demo_with_idle "print(1+1)")) as (_ & -> & _).
  reflexivity.
Defined.

(** * Further properties of the component *)

Section Coverage.
Context {Figure Heap : Type} `{!Pyodide Figure Heap}.

Implicit Types (w : World Figure Heap) (e : Py Figure Heap) (t : RunTask) (c : Component).

(** ** The output area *)

Lemma js_or_placeholder_nonempty (s : string) : js_or s "Execution completed" <> "".
Proof. apply truthy_nonempty, js_or_truthy. reflexivity. Qed.

Lemma running_output_nonempty t e w : running t e w -> output (ui w) <> "".
Proof.
  intros (_ & _ & _ & _ & Hout).
  destruct (rt_pc t); try (rewrite Hout; discriminate).
  destruct Hout as (stdout & _ & ->). apply js_or_placeholder_nonempty.
Qed.

Lemma resume_output_nonempty t e w :
  running t e w -> output (ui (runPython_resume 0 w)) <> "".
Proof.
  intros Hrun. pose proof (running_output_nonempty t e w Hrun) as Hne.
  destruct Hrun as ((Hl & Hp & He & Hi) & Hr & Hruns & Hpl & Hout).
  unfold runPython_resume. rewrite Hruns, He. simpl.
  destruct (rt_pc t).
  - exact Hne.
  - destruct (exec (rt_code t) e) as [e' [[]|m]]; simpl; [exact Hne | discriminate].
  - destruct (py_getvalue e) as [stdout|m]; simpl;
      [apply js_or_placeholder_nonempty | discriminate].
  - destruct (py_figures e) as [e' [figures|m]]; simpl; [exact Hne | discriminate].
Qed.

(** A resumption that does something finds the session running. *)
Lemma resume_cases i w :
  inv w ->
  runPython_resume i w = w \/ (i = 0 /\ exists t e, running t e w).
Proof.
  intros Hinv. destruct (runs w !! i) as [t'|] eqn:Hlk.
  2:{ left. unfold runPython_resume. rewrite Hlk. reflexivity. }
  destruct (inv_cases w Hinv)
    as [(l & (_ & _ & _ & _ & Hr) & _) | [(m & (_ & _ & _ & _ & Hr) & _)
       | [(e & _ & _ & Hr) | (t & e & Ht)]]];
    try (rewrite Hr in Hlk; discriminate).
  right. destruct (running_lookup _ _ _ _ _ Ht Hlk) as [-> _]. eauto.
Qed.

(** A click that does something finds the session idle. *)
Lemma click_cases w :
  inv w -> onClick w = w \/ exists e, idle e w.
Proof.
  intros Hinv.
  destruct (inv_cases w Hinv)
    as [(l & (Hl & _) & _) | [(m & (Hl & _) & _) | [He | (t & e & (_ & Hr & _))]]].
  - left. apply busy_onClick. auto.
  - left. apply busy_onClick. auto.
  - right. exact He.
  - left. apply busy_onClick. auto.
Qed.

Lemma output_nonempty_step ev w :
  inv w -> output (ui w) <> "" -> output (ui (step ev w)) <> "".
Proof.
  intros Hinv Hne. destruct ev as [|r|r|r| |v|i]; simpl.
  - unfold initPyodide. destruct (init w); exact Hne.
  - unfold loadPyodide_settled. destruct (init w), r; exact Hne.
  - unfold loadPackage_settled. destruct (init w), r; exact Hne.
  - unfold configure_settled. destruct (init w), r; exact Hne.
  - destruct (click_cases w Hinv) as [-> | [e He]]; [exact Hne|].
    destruct (idle_onClick e w He) as (_ & _ & _ & _ & Hout). simpl in Hout.
    rewrite Hout. discriminate.
  - unfold handleEditorChange. destruct v as [v|]; [destruct (truthy v)|]; exact Hne.
  - destruct (resume_cases i w Hinv) as [-> | [-> (t & e & Ht)]]; [exact Hne|].
    eapply resume_output_nonempty. exact Ht.
Qed.

Lemma output_nonempty_run_events evs w :
  inv w -> output (ui w) <> "" -> output (ui (run_events evs w)) <> "".
Proof.
  revert w. induction evs as [|ev evs IH]; intros w Hinv Hne; simpl; [exact Hne|].
  apply IH; [apply inv_step, Hinv | apply output_nonempty_step; assumption].
Qed.

Lemma output_area_shown c : output_area (render c) <> None <-> output c <> "".
Proof.
  unfold render; simpl. destruct (output c); simpl; split; congruence.
Qed.

(** The output area is empty until the first click on Run.  That click
    shows the text of line 67, and from then on, whatever happens, the
    output area is never empty again. *)
Theorem output_area_never_blank_again w :
  reachable w ->
  (phase (ui w) = Ready ->
     output_area (render (ui (step ClickRun w))) = Some "Running...") /\
  (output_area (render (ui w)) <> None ->
     forall evs, exists text,
       output_area (render (ui (run_events evs w))) = Some text /\ text <> "").
Proof.
  intros Hreach. pose proof (reachable_inv w Hreach) as Hinv. split.
  - intros Hph. destruct (phase_ready_idle w Hinv Hph) as [e He].
    destruct (idle_onClick e w He) as (_ & _ & _ & _ & Hout). simpl in Hout.
    simpl. unfold render; simpl. rewrite Hout. reflexivity.
  - intros Hshown evs. apply output_area_shown in Hshown.
    pose proof (output_nonempty_run_events evs w Hinv Hshown) as Hne.
    exists (output (ui (run_events evs w))). split; [|exact Hne].
    unfold render; simpl. apply truthy_nonempty in Hne. rewrite Hne. reflexivity.
Qed.

(** ** Before the first run *)

(** What holds as long as the output area is empty. *)
Lemma blank_step ev w :
  inv w ->
  (output (ui w) = "" ->
     plots (ui w) = [] /\
     (isLoading (ui w) = false -> interp w = Some (py_configure py_fresh))) ->
  output (ui (step ev w)) = "" ->
  plots (ui (step ev w)) = [] /\
  (isLoading (ui (step ev w)) = false ->
     interp (step ev w) = Some (py_configure py_fresh)).
Proof.
  intros Hinv Hblank. pose proof Hinv as [_ Hs].
  destruct ev as [|r|r|r| |v|i]; simpl.
  - unfold initPyodide. destruct (init w); exact Hblank.
  - unfold loadPyodide_settled. destruct (init w) eqn:Hi; try exact Hblank.
    destruct Hs as [(Hl & _) _].
    destruct r; simpl; intros Hout; (split; [apply Hblank, Hout | congruence]).
  - unfold loadPackage_settled. destruct (init w) eqn:Hi; try exact Hblank.
    destruct r; exact Hblank.
  - unfold configure_settled. destruct (init w) eqn:Hi; try exact Hblank.
    destruct Hs as [(Hl & _) He].
    destruct r; simpl; intros Hout.
    + split; [apply Hblank, Hout|]. intros _. rewrite He. reflexivity.
    + split; [apply Hblank, Hout | congruence].
  - destruct (click_cases w Hinv) as [-> | [e He]]; [exact Hblank|].
    destruct (idle_onClick e w He) as (_ & _ & _ & _ & Hout). simpl in Hout.
    rewrite Hout. discriminate.
  - unfold handleEditorChange. destruct v as [v|]; [destruct (truthy v)|]; exact Hblank.
  - destruct (resume_cases i w Hinv) as [-> | [-> (t & e & Ht)]]; [exact Hblank|].
    intros Hout. exfalso. eapply resume_output_nonempty; eassumption.
Qed.

Lemma blank_reachable w :
  reachable w -> output (ui w) = "" ->
  plots (ui w) = [] /\
  (isLoading (ui w) = false -> interp w = Some (py_configure py_fresh)).
Proof.
  induction 1 as [|ev w Hreach IH].
  - intros _. split; [reflexivity | discriminate].
  - apply blank_step; [apply reachable_inv, Hreach | exact IH].
Qed.

(** As long as the output area is empty, no run has touched the
    interpreter: once loaded it is the fresh interpreter with the
    configuration snippet applied, whatever the user did meanwhile, so the
    first run is a run of the editor's text against that interpreter. *)
Theorem first_run_on_fresh_interpreter w :
  reachable w -> phase (ui w) = Ready -> output (ui w) = "" ->
  render (ui w)
  = {| header := RunButton false Play "Run"; output_area := None;
       plot_area := None |} /\
  idle (py_configure py_fresh) w /\
  result (ui (submit w))
  = shown (snd (run_to_completion (currentCode (ui w)) (py_configure py_fresh))).
Proof.
  intros Hreach Hph Hout.
  destruct (phase_ready_idle w (reachable_inv w Hreach) Hph) as [e He].
  destruct (blank_reachable w Hreach Hout) as [Hpl Hfresh].
  pose proof He as ((Hl & _ & Hi & _) & Hr & _).
  rewrite (Hfresh Hl) in Hi. injection Hi as <-.
  split; [|split; [exact He | apply idle_submit, He]].
  unfold render, render_header. rewrite Hl, Hr, Hout, Hpl. reflexivity.
Qed.

(** ** While the loader runs *)

(** Nothing is shown below the editor while the header shows the loader. *)
Lemma loading_blank w :
  reachable w -> isLoading (ui w) = true ->
  output (ui w) = "" /\ plots (ui w) = [].
Proof.
  induction 1 as [|ev w Hreach IH]; [split; reflexivity|].
  pose proof (reachable_inv w Hreach) as Hinv.
  intros Hl'.
  destruct (isLoading (ui w)) eqn:Hl.
  2:{ rewrite (loaded_step ev w Hinv Hl) in Hl'. discriminate. }
  specialize (IH eq_refl).
  destruct ev as [|r|r|r| |v|i]; simpl in *.
  - unfold initPyodide. destruct (init w); exact IH.
  - unfold loadPyodide_settled. destruct (init w), r; exact IH.
  - unfold loadPackage_settled. destruct (init w), r; exact IH.
  - unfold configure_settled. destruct (init w), r; exact IH.
  - rewrite busy_onClick by auto. exact IH.
  - unfold handleEditorChange. destruct v as [v|]; [destruct (truthy v)|]; exact IH.
  - destruct (resume_cases i w Hinv) as [-> | [_ (t & e & ((Hf & _) & _))]];
      [exact IH | congruence].
Qed.

(** ** The phase graph *)

Lemma phase_loader_label l w :
  loader_at l w -> strip_prefix "Error: " l = None ->
  String.eqb l "Initializing..." = false ->
  phase (ui w) = Loading l.
Proof.
  intros (Hl & Hst & _) Hstrip Heqb. unfold phase.
  rewrite Hl, Hst, Hstrip, Heqb. reflexivity.
Qed.

(** A step of the loader from one of its awaits. *)
Lemma loader_step_phase ev w :
  inv w -> init w <> NotStarted -> init w <> InitSettled ->
  exists l, phase (ui w) = Loading l /\
    (phase (ui (step ev w)) = Loading l \/
     (exists l', phase (ui (step ev w)) = Loading l') \/
     phase (ui (step ev w)) = Ready \/
     exists m, phase (ui (step ev w)) = Failed m).
Proof.
  intros [_ Hs] Hns Hst.
  destruct (init w) eqn:Hi; try congruence;
    destruct Hs as [Hload He]; pose proof Hload as (Hl & Hstat & Hp & Hr & Hruns);
    (eexists; split; [apply (phase_loader_label _ _ Hload); reflexivity|]);
    destruct ev as [|r|r|r| |v|i]; simpl;
    unfold initPyodide, loadPyodide_settled, loadPackage_settled,
      configure_settled, handleEditorChange, initPyodide_catch;
    rewrite ?Hi, ?busy_onClick, ?no_run_resume by auto;
    try (destruct r as [|m]);
    try (destruct v as [v|]; [destruct (truthy v)|]);
    unfold phase; simpl; rewrite ?Hl, ?Hr, ?Hstat; simpl; eauto 6.
Qed.

(** Every step either keeps the phase or follows an edge of the graph
    [Uninitialized -> Loading -> Ready <-> Running], [Loading -> Failed]
    (and [Loading -> Loading] when the progress label changes). *)
Theorem phase_follows_graph ev w :
  reachable w ->
  phase (ui (step ev w)) = phase (ui w) \/
  phase_edge (phase (ui w)) (phase (ui (step ev w))).
Proof.
  intros Hreach. pose proof (reachable_inv w Hreach) as Hinv.
  destruct (inv_cases w Hinv) as [(l & Hload & Hns) | [(m & Hm & Hi) | [[e He] | (t & e & Ht)]]].
  - destruct (init w) eqn:Hi; try congruence.
    + (* before the mount *)
      destruct Hinv as [_ Hs]. rewrite Hi in Hs.
      destruct Hs as [(Hl & Hstat & Hp & Hr & Hruns) He].
      destruct ev as [|r|r|r| |v|i]; simpl;
        unfold initPyodide, loadPyodide_settled, loadPackage_settled,
          configure_settled, handleEditorChange;
        rewrite ?Hi, ?busy_onClick, ?no_run_resume by auto;
        try (destruct v as [v|]; [destruct (truthy v)|]);
        auto.
      right. unfold phase; simpl. rewrite Hl, Hstat. simpl. exact I.
    + destruct (loader_step_phase ev w Hinv) as (l0 & -> & [-> | [[l' ->] | [-> | [m ->]]]]);
        try congruence; simpl; auto.
    + destruct (loader_step_phase ev w Hinv) as (l0 & -> & [-> | [[l' ->] | [-> | [m ->]]]]);
        try congruence; simpl; auto.
    + destruct (loader_step_phase ev w Hinv) as (l0 & -> & [-> | [[l' ->] | [-> | [m ->]]]]);
        try congruence; simpl; auto.
  - left. destruct (failed_event m w ev Hm Hi) as (Hm' & _).
    rewrite (phase_loader_error _ _ Hm), (phase_loader_error _ _ Hm'). reflexivity.
  - rewrite (phase_idle _ _ He).
    assert (Hother : ev <> ClickRun -> phase (ui (step ev w)) = Ready).
    { intros Hev. destruct (idle_other_event e w ev He Hev) as [He' _].
      eapply phase_idle. exact He'. }
    destruct ev; try (left; apply Hother; discriminate).
    right. simpl. rewrite (phase_running _ _ _ (idle_onClick e w He)). exact I.
  - rewrite (phase_running _ _ _ Ht).
    assert (Hother : ev <> RunSettled 0 -> phase (ui (step ev w)) = Running).
    { intros Hev. destruct (running_other_event t e w ev Ht Hev) as [Ht' _].
      eapply phase_running. exact Ht'. }
    destruct ev as [|r|r|r| |v|[|i]]; try (left; apply Hother; discriminate).
    simpl. destruct (running_resume t e w Ht) as [(pc & e' & Ht' & _) | (e' & He' & _)].
    + left. eapply phase_running. exact Ht'.
    + right. rewrite (phase_idle _ _ He'). exact I.
Qed.

(** ** The header *)

(** The header shows the status line exactly while no interpreter reference
    is stored, and then a click can do nothing; otherwise it shows the Run
    button, which is disabled, with the spinner and the label of line 137,
    exactly while a call of [runPython] is suspended, and which starts a
    run when it is enabled. *)
Theorem header_reflects_session w :
  reachable w ->
  match header (render (ui w)) with
  | StatusLine icon text =>
      icon = Loader2 /\ text = status (ui w) /\
      pyodide (ui w) = None /\ runs w = [] /\
      forall i, step ClickRun w = w /\ step (RunSettled i) w = w
  | RunButton disabled icon label =>
      pyodide (ui w) = Some interpreter_ref /\
      (exists e, interp w = Some e) /\
      (disabled = true <-> length (runs w) = 1) /\
      (disabled = false <-> runs w = []) /\
      (icon, label) = (if disabled then (Loader2, "Running...") else (Play, "Run")) /\
      (disabled = true -> step ClickRun w = w) /\
      (disabled = false -> phase (ui (step ClickRun w)) = Running)
  end.
Proof.
  intros Hreach. pose proof (reachable_inv w Hreach) as Hinv.
  unfold render, render_header; simpl.
  destruct (inv_cases w Hinv)
    as [(l & Hload & _) | [(m & Hload & _) | [[e He] | (t & e & Ht)]]].
  - destruct Hload as (Hl & Hst & Hp & Hr & Hruns). rewrite Hl.
    repeat split; auto; [apply busy_onClick; auto | apply no_run_resume, Hruns].
  - destruct Hload as (Hl & Hst & Hp & Hr & Hruns). rewrite Hl.
    repeat split; auto; [apply busy_onClick; auto | apply no_run_resume, Hruns].
  - pose proof He as ((Hl & Hp & Hi & _) & Hr & Hruns). rewrite Hl, Hr, Hruns.
    split; [exact Hp|]. split; [eauto|].
    split; [split; discriminate|]. split; [split; reflexivity|].
    split; [reflexivity|]. split; [discriminate|]. intros _.
    simpl. eapply phase_running. apply idle_onClick. exact He.
  - pose proof Ht as ((Hl & Hp & Hi & _) & Hr & Hruns & _). rewrite Hl, Hr, Hruns.
    split; [exact Hp|]. split; [eauto|].
    split; [split; reflexivity|]. split; [split; discriminate|].
    split; [reflexivity|]. split; [|discriminate]. intros _.
    apply busy_onClick. auto.
Qed.

Lemma rejected_failed ev m w :
  inv w -> load_rejected ev m w ->
  loader_at ("Error: " ++ m) (step ev w) /\ init (step ev w) = InitSettled.
Proof.
  intros [_ Hs] Hrej.
  destruct Hrej as [[-> Hi] | [[-> Hi] | [-> Hi]]]; rewrite Hi in Hs;
    destruct Hs as [Hl _]; simpl;
    unfold loadPyodide_settled, loadPackage_settled, configure_settled;
    rewrite Hi; eapply catch_failed; exact Hl.
Qed.

(** After a rejected load the page shows, whatever happens next, the
    spinner with the error message, and neither a Run button nor an output
    area nor plots. *)
Theorem failed_load_view ev m w evs :
  reachable w -> load_rejected ev m w ->
  render (ui (run_events evs (step ev w)))
  = {| header := StatusLine Loader2 ("Error: " ++ m);
       output_area := None; plot_area := None |}.
Proof.
  intros Hreach Hrej.
  assert (Hreach' : reachable (run_events evs (step ev w)))
    by (apply reachable_run_events, reachable_step, Hreach).
  destruct (rejected_failed ev m w (reachable_inv w Hreach) Hrej) as [Hload Hi].
  destruct (failed_run_events m evs _ Hload Hi) as ((Hl & Hst & _) & _).
  destruct (loading_blank _ Hreach' Hl) as [Hout Hpl].
  unfold render, render_header. rewrite Hl, Hst, Hout, Hpl. reflexivity.
Qed.

(** ** The plot area *)

Lemma decimal_inj (n m : nat) : decimal n = decimal m -> n = m.
Proof.
  unfold decimal. intros Heq. apply Unsigned.to_uint_inj.
  apply (f_equal NilEmpty.uint_of_string) in Heq.
  rewrite !NilEmpty.usu in Heq. congruence.
Qed.

Lemma render_plot_lookup (ps : list string) (i : nat) (img : Img) :
  imap render_plot ps !! i = Some img <->
  exists plot, ps !! i = Some plot /\ img = render_plot i plot.
Proof.
  rewrite list_lookup_imap. destruct (ps !! i) as [plot|]; simpl.
  - split; [intros [= <-]; eauto | intros (p' & [= <-] & ->); reflexivity].
  - split; [discriminate | intros (p' & ? & _); discriminate].
Qed.

(** The plot area is there exactly when there are plots.  It has one image
    per plot, in order; the image at index [i] has key [i], the alt text
    [Plot] followed by [i + 1], and a source from which the plot is read
    back by removing the data URL prefix.  No two images share a key or an
    alt text. *)
Theorem plot_area_images c :
  (plot_area (render c) = None <-> plots c = []) /\
  forall imgs,
    plot_area (render c) = Some imgs ->
    length imgs = length (plots c) /\
    (forall i img,
        imgs !! i = Some img ->
        key img = i /\ alt img = "Plot " ++ decimal (i + 1) /\
        exists plot,
          plots c !! i = Some plot /\
          strip_prefix "data:image/png;base64," (src img) = Some plot) /\
    NoDup (key <$> imgs) /\ NoDup (alt <$> imgs).
Proof.
  unfold render; simpl. split.
  { destruct (plots c); simpl; split; congruence. }
  intros imgs Himgs.
  assert (Heq : imgs = imap render_plot (plots c)).
  { destruct (plots c); simpl in Himgs; [discriminate|].
    injection Himgs as <-. reflexivity. }
  clear Himgs. subst imgs.
  split; [apply length_imap|].
  split.
  { intros i img Hlk. apply render_plot_lookup in Hlk as (plot & Hp & ->).
    simpl. split; [reflexivity|]. split; [reflexivity|].
    exists plot. split; [exact Hp|].
    apply (strip_prefix_app "data:image/png;base64," plot). }
  split.
  - apply NoDup_alt. intros i j k Hi Hj.
    rewrite list_lookup_fmap in Hi, Hj.
    destruct (imap render_plot (plots c) !! i) as [a|] eqn:Ha; [|discriminate].
    destruct (imap render_plot (plots c) !! j) as [b|] eqn:Hb; [|discriminate].
    apply render_plot_lookup in Ha as (pa & _ & ->).
    apply render_plot_lookup in Hb as (pb & _ & ->).
    simpl in Hi, Hj. congruence.
  - apply NoDup_alt. intros i j k Hi Hj.
    rewrite list_lookup_fmap in Hi, Hj.
    destruct (imap render_plot (plots c) !! i) as [a|] eqn:Ha; [|discriminate].
    destruct (imap render_plot (plots c) !! j) as [b|] eqn:Hb; [|discriminate].
    apply render_plot_lookup in Ha as (pa & _ & ->).
    apply render_plot_lookup in Hb as (pb & _ & ->).
    simpl in Hi, Hj. injection Hi as <-. injection Hj as Hj.
    apply decimal_inj in Hj. lia.
Qed.


(** ** The stored code *)

Lemma currentCode_step ev w :
  currentCode (ui (step ev w)) = code_after [ev] (currentCode (ui w)).
Proof.
  destruct ev as [|r|r|r| |v|i]; simpl.
  - unfold initPyodide. destruct (init w); reflexivity.
  - unfold loadPyodide_settled. destruct (init w), r; reflexivity.
  - unfold loadPackage_settled. destruct (init w), r; reflexivity.
  - unfold configure_settled. destruct (init w), r; reflexivity.
  - unfold onClick, runPython.
    destruct (isLoading (ui w)), (isRunning (ui w)), (pyodide (ui w)); reflexivity.
  - unfold handleEditorChange. destruct v as [v|]; [|reflexivity].
    simpl. destruct (truthy v); reflexivity.
  - apply resume_keeps.
Qed.


Lemma code_after_edits vs code : code_after (edits vs) code = edited vs code.
Proof.
  revert code. induction vs as [|v vs IH]; intros code; simpl; [reflexivity|].
  apply IH.
Qed.

Lemma truthy_edited vs code : code <> "" -> edited vs code <> "".
Proof.
  revert code. induction vs as [|v vs IH]; intros code Hne; simpl; [exact Hne|].
  apply IH. destruct v as [s|]; simpl; [|exact Hne].
  destruct (truthy s) eqn:Hs; [apply truthy_nonempty, Hs | exact Hne].
Qed.

Lemma currentCode_run_events evs w :
  currentCode (ui (run_events evs w)) = code_after evs (currentCode (ui w)).
Proof.
  revert w. induction evs as [|ev evs IH]; intros w; simpl; [reflexivity|].
  rewrite IH, currentCode_step. reflexivity.
Qed.

(** The stored code is written by the editor's reports alone: after any
    sequence of events it is the last non-empty text the editor reported,
    or the code there was; loading, clicks and runs never change it. *)
Theorem stored_code_is_last_nonempty_edit evs w :
  currentCode (ui (run_events evs w)) = code_after evs (currentCode (ui w)) /\
  (forall vs, code_after (edits vs) (currentCode (ui w))
              = edited vs (currentCode (ui w))) /\
  (forall vs s, s <> "" ->
     edited (vs ++ [Some s]) (currentCode (ui w)) = s /\
     edited (vs ++ [Some s; None; Some ""]) (currentCode (ui w)) = s).
Proof.
  split; [|split].
  - apply currentCode_run_events.
  - intros vs. apply code_after_edits.
  - intros vs s Hs. unfold edited. rewrite !fold_left_app. simpl.
    destruct s; [congruence|]. simpl. auto.
Qed.

(** ** A run and the edits made while it is in flight *)






(** ** When the figure snippet raises *)

Lemma save_figures_raises saved f rest m h acc :
  Forall (fun g => exists buf, savefig g png_options = Returned buf) saved ->
  savefig f png_options = Raised m ->
  exists h', save_figures (saved ++ f :: rest) h acc = (f :: rest, h', Raised m).
Proof.
  intros Hsaved Hf. revert h acc.
  induction Hsaved as [|g saved (buf & Hg) _ IH]; intros h acc; simpl.
  - rewrite Hf. eauto.
  - rewrite Hg. apply IH.
Qed.

Lemma py_figures_raises e saved f rest m :
  name_plt e = true ->
  figs e = (saved ++ f :: rest)%list ->
  Forall (fun g => exists buf, savefig g png_options = Returned buf) saved ->
  savefig f png_options = Raised m ->
  exists e', py_figures e = (e', Raised m) /\ figs e' = f :: rest.
Proof.
  intros Hplt Hfigs Hsaved Hf. unfold py_figures. rewrite Hplt, Hfigs.
  destruct (save_figures_raises saved f rest m (bind_imports (heap e)) [] Hsaved Hf)
    as [h' ->].
  eexists. split; reflexivity.
Qed.

(** The run of code that returns normally and leaves a readable buffer,
    when the figure snippet then raises [m] and leaves [e3]. *)
Lemma run_raises_in_figures e w e2 stdout e3 m :
  idle e w ->
  exec (currentCode (ui w)) (py_redirect e) = (e2, Returned tt) ->
  py_getvalue e2 = Returned stdout ->
  py_figures e2 = (e3, Raised m) ->
  idle e3 (submit w) /\ result (ui (submit w)) = ("Error: " ++ m, []).
Proof.
  intros Hidle Hex Hget Hfig.
  destruct (idle_submit e w Hidle) as (Hidle' & Hres & _).
  unfold run_to_completion, run_from_user in Hidle', Hres.
  rewrite Hex in Hidle', Hres.
  unfold run_from_getvalue in Hidle', Hres. rewrite Hget in Hidle', Hres.
  unfold run_from_figures in Hidle', Hres. rewrite Hfig in Hidle', Hres.
  auto.
Qed.

(** When [savefig] raises for an open figure, the run shows the error and
    no image at all: the figures enumerated before it have been saved and
    closed, and their images are dropped; the figure that failed and the
    ones after it stay open.  A following run whose code leaves that figure
    first among the open ones fails in the same way, whatever the code
    printed. *)
Theorem unsavable_figure_fails_the_run e w e2 stdout saved f rest m :
  idle e w ->
  exec (currentCode (ui w)) (py_redirect e) = (e2, Returned tt) ->
  py_getvalue e2 = Returned stdout ->
  name_plt e2 = true ->
  figs e2 = (saved ++ f :: rest)%list ->
  Forall (fun g => exists buf, savefig g png_options = Returned buf) saved ->
  savefig f png_options = Raised m ->
  result (ui (submit w)) = ("Error: " ++ m, []) /\
  exists e3,
    idle e3 (submit w) /\ figs e3 = f :: rest /\
    forall v e4 stdout' rest',
      exec (currentCode (ui (step (EditorChange v) (submit w)))) (py_redirect e3)
      = (e4, Returned tt) ->
      py_getvalue e4 = Returned stdout' ->
      name_plt e4 = true ->
      figs e4 = f :: rest' ->
      result (ui (submit (step (EditorChange v) (submit w)))) = ("Error: " ++ m, []).
Proof.
  intros Hidle Hex Hget Hplt Hfigs Hsaved Hf.
  destruct (py_figures_raises e2 saved f rest m Hplt Hfigs Hsaved Hf)
    as (e3 & Hfig & Hfigs3).
  destruct (run_raises_in_figures e w e2 stdout e3 m Hidle Hex Hget Hfig)
    as [Hidle3 Hres].
  split; [exact Hres|]. exists e3. split; [exact Hidle3|]. split; [exact Hfigs3|].
  intros v e4 stdout' rest' Hex4 Hget4 Hplt4 Hfigs4.
  destruct (idle_other_event e3 (submit w) (EditorChange v) Hidle3) as [Hidle4 _];
    [discriminate|].
  destruct (py_figures_raises e4 [] f rest' m Hplt4 Hfigs4 (Forall_nil_2 _) Hf)
    as (e5 & Hfig5 & _).
  eapply (run_raises_in_figures _ _ e4 stdout'); eassumption.
Qed.

(** The figure snippet does not import [plt]: it uses the name the
    configuration snippet bound when the interpreter was loaded.  When the
    user's code has left that name unbound, the run shows the error and no
    figure is saved or closed.  Of the interpreter only the globals have
    changed, by the bindings of lines 83-86, which have run when line 87
    raises: the open figures, [sys.stdout] and the names [sys] and [plt] are
    as the user's code left them. *)
Theorem unbound_plt_fails_the_run e w e2 stdout :
  idle e w ->
  exec (currentCode (ui w)) (py_redirect e) = (e2, Returned tt) ->
  py_getvalue e2 = Returned stdout ->
  name_plt e2 = false ->
  result (ui (submit w)) = ("Error: " ++ plt_error e2, []) /\
  exists e3,
    idle e3 (submit w) /\
    figs e3 = figs e2 /\ sys_stdout e3 = sys_stdout e2 /\
    name_sys e3 = name_sys e2 /\ name_plt e3 = false /\
    heap e3 = bind_imports (heap e2).
Proof.
  intros Hidle Hex Hget Hplt.
  destruct (py_figures e2) as [e3 r] eqn:Hfig.
  pose proof Hfig as Hfig'. unfold py_figures in Hfig'. rewrite Hplt in Hfig'.
  injection Hfig' as <- <-.
  destruct (run_raises_in_figures e w e2 stdout _ _ Hidle Hex Hget Hfig) as [Hidle3 Hres].
  split; [exact Hres|]. eexists. split; [exact Hidle3|].
  simpl. repeat split.
Qed.

(** ** The status line *)

(** The status line shows one of the four progress labels or the error
    message of the loader; the status [Ready!] of line 53 is never shown,
    since the header shows the button from then on.  Once the loader has
    settled, no event changes the status, the loading flag or the stored
    reference: the interpreter is never loaded again. *)
Theorem status_line_texts w :
  reachable w ->
  (forall icon text,
      header (render (ui w)) = StatusLine icon text ->
      In text ["Initializing..."; "Loading Python environment...";
               "Loading NumPy and Matplotlib..."; "Configuring plotting..."] \/
      exists m, text = "Error: " ++ m /\ phase (ui w) = Failed m) /\
  (init w = InitSettled ->
   forall ev,
     init (step ev w) = InitSettled /\
     status (ui (step ev w)) = status (ui w) /\
     isLoading (ui (step ev w)) = isLoading (ui w) /\
     pyodide (ui (step ev w)) = pyodide (ui w)).
Proof.
  intros Hreach. pose proof (reachable_inv w Hreach) as Hinv. split.
  - intros icon text. unfold render, render_header; simpl.
    destruct (isLoading (ui w)) eqn:Hl; [|discriminate].
    intros [= _ <-]. destruct Hinv as [_ Hs].
    destruct (init w);
      try (destruct Hs as [(_ & -> & _) _]; left; simpl; tauto).
    destruct Hs as [[m Hm] | [[e ((? & _) & _)] | (t & e & ((? & _) & _))]];
      try congruence.
    right. exists m. split; [apply Hm | apply phase_loader_error, Hm].
  - intros Hi ev.
    destruct ev as [|r|r|r| |v|i]; simpl.
    + rewrite settled_initPyodide by exact Hi. repeat split; auto.
    + destruct (settled_loader_events r w Hi) as (-> & _). repeat split; auto.
    + destruct (settled_loader_events r w Hi) as (_ & -> & _). repeat split; auto.
    + destruct (settled_loader_events r w Hi) as (_ & _ & ->). repeat split; auto.
    + unfold onClick, runPython.
      destruct (isLoading (ui w)) eqn:Hl, (isRunning (ui w)) eqn:Hr,
        (pyodide (ui w)) eqn:Hp; repeat split; auto.
    + unfold handleEditorChange. destruct v as [v|]; [destruct (truthy v)|];
        repeat split; auto.
    + destruct (resume_cases i w Hinv) as [-> | [-> (t & e & Ht)]];
        [repeat split; auto|].
      destruct (resume_keeps 0 w) as [_ Hi'].
      split; [congruence|].
      pose proof Ht as ((Hl & Hp & He & _) & Hr & Hruns & _).
      unfold runPython_resume. rewrite Hruns, He. simpl.
      destruct (rt_pc t); simpl; auto.
      * destruct (exec (rt_code t) e) as [e' [[]|m]]; simpl; auto.
      * destruct (py_getvalue e); simpl; auto.
      * destruct (py_figures e) as [e' [figures|m]]; simpl; auto.
Qed.

(** ** When the buffer cannot be read *)

(** When the read of line 79 raises (the user's code has rebound
    [sys.stdout] or [sys]), the run shows the error and the figure snippet
    is not run: the interpreter, with the figures the code opened, is left
    as the code left it.  The next run installs a buffer again and can read
    it. *)
Theorem unreadable_buffer_fails_the_run e w e2 m :
  idle e w ->
  exec (currentCode (ui w)) (py_redirect e) = (e2, Returned tt) ->
  py_getvalue e2 = Raised m ->
  result (ui (submit w)) = ("Error: " ++ m, []) /\
  idle e2 (submit w) /\
  py_getvalue (py_redirect e2) = Returned "".
Proof.
  intros Hidle Hex Hget.
  destruct (idle_submit e w Hidle) as (Hidle' & Hres & _).
  unfold run_to_completion, run_from_user in Hidle', Hres.
  rewrite Hex in Hidle', Hres.
  unfold run_from_getvalue in Hidle', Hres. rewrite Hget in Hidle', Hres.
  auto.
Qed.

End Coverage.

(** * Examples for the further properties *)

Lemma picky_with_idle code :
  code <> "" ->
  idle (py_configure (py_fresh (H := picky_pyodide))) (picky_with code).
Proof.
  intros Hne. unfold picky_with.
  change (run_events ?l initial)
    with (step (Pyodide0 := picky_pyodide) (EditorChange (Some code))
            (run_events (Pyodide0 := picky_pyodide)
               [Mount; LoadPyodideSettled Fulfilled; LoadPackageSettled Fulfilled;
                ConfigureSettled Fulfilled] initial)).
  apply idle_other_event; [|discriminate].
  vm_compute. tauto.
Qed.

Lemma phase_follows_graph_witness :
  reachable (demo_with "print(1+1)") /\
  phase_edge (phase (ui (demo_with "print(1+1)")))
    (phase (ui (step ClickRun (demo_with "print(1+1)")))).
Proof.
  pose proof (demo_with_reachable "print(1+1)") as Hreach.
  split; [exact Hreach|].
  destruct (phase_follows_graph (Pyodide0 := demo_pyodide) ClickRun _ Hreach)
    as [Hsame | Hedge]; [discriminate Hsame | exact Hedge].
Defined.

Lemma header_reflects_session_witness :
  reachable (step ClickRun (demo_with "print(1+1)")) /\
  header (render (ui (step ClickRun (demo_with "print(1+1)"))))
  = RunButton true Loader2 "Running..." /\
  length (runs (step ClickRun (demo_with "print(1+1)"))) = 1.
Proof.
  assert (Hreach : reachable (step ClickRun (demo_with "print(1+1)")))
    by apply reachable_step, demo_with_reachable.
  split; [exact Hreach|]. split; [vm_compute; reflexivity|].
  generalize (header_reflects_session (Pyodide0 := demo_pyodide) _ Hreach).
  vm_compute. intros (_ & _ & Hdis & _). apply Hdis. reflexivity.
Defined.

Lemma failed_load_view_witness :
  let w := run_events [Mount; LoadPyodideSettled Fulfilled]
             (initial (Figure := string) (Heap := unit)) in
  reachable w /\
  load_rejected (LoadPackageSettled (Rejected "network")) "network" w /\
  render (ui (run_events [ClickRun; EditorChange (Some "print(1+1)"); ClickRun]
                (step (LoadPackageSettled (Rejected "network")) w)))
  = {| header := StatusLine Loader2 "Error: network";
       output_area := None; plot_area := None |}.
Proof.
  intros w.
  assert (Hreach : reachable w) by apply reachable_run_events, reachable_initial.
  assert (Hrej : load_rejected (LoadPackageSettled (Rejected "network")) "network" w)
    by (right; left; split; reflexivity).
  split; [exact Hreach|]. split; [exact Hrej|].
  apply (failed_load_view (Pyodide0 := demo_pyodide) _ _ _ _ Hreach Hrej).
Defined.

Lemma plot_area_images_witness :
  let c := ui (submit (demo_with "plt.figure(); plt.figure()")) in
  plot_area (render c)
  = Some [ {| key := 0; src := "data:image/png;base64,base64 png first";
              alt := "Plot 1" |};
           {| key := 1; src := "data:image/png;base64,base64 png second";
              alt := "Plot 2" |} ] /\
  NoDup (alt <$> [ {| key := 0; src := "data:image/png;base64,base64 png first";
                      alt := "Plot 1" |};
                   {| key := 1; src := "data:image/png;base64,base64 png second";
                      alt := "Plot 2" |} ]).
Proof.
  intros c. split; [reflexivity|].
  destruct (plot_area_images c) as [_ H].
  destruct (H _ ltac:(reflexivity)) as (_ & _ & _ & Halt). exact Halt.
Defined.


Lemma output_area_never_blank_again_witness :
  reachable (demo_with "print(1+1)") /\
  phase (ui (demo_with "print(1+1)")) = Ready /\
  output_area (render (ui (step ClickRun (demo_with "print(1+1)"))))
  = Some "Running...".
Proof.
  pose proof (demo_with_reachable "print(1+1)") as Hreach.
  split; [exact Hreach|]. split; [reflexivity|].
  destruct (output_area_never_blank_again (Pyodide0 := demo_pyodide) _ Hreach)
    as [Hclick _].
  apply Hclick. reflexivity.
Defined.

Lemma first_run_on_fresh_interpreter_witness :
  reachable (demo_with "print(1+1)") /\
  phase (ui (demo_with "print(1+1)")) = Ready /\
  output (ui (demo_with "print(1+1)")) = "" /\
  idle (py_configure py_fresh) (demo_with "print(1+1)").
Proof.
  pose proof (demo_with_reachable "print(1+1)") as Hreach.
  split; [exact Hreach|]. split; [reflexivity|]. split; [reflexivity|].
  destruct (first_run_on_fresh_interpreter (Pyodide0 := demo_pyodide) _ Hreach
              ltac:(reflexivity) ltac:(reflexivity)) as (_ & Hidle & _).
  exact Hidle.
Defined.


Lemma stored_code_is_last_nonempty_edit_witness :
  "print('ok')" <> "" /\
  edited ([Some "plt.figure()"] ++ [Some "print('ok')"; None; Some ""])
    (currentCode (ui (demo_with "print(1+1)")))
  = "print('ok')".
Proof.
  split; [discriminate|].
  destruct (stored_code_is_last_nonempty_edit (Pyodide0 := demo_pyodide) []
              (demo_with "print(1+1)")) as (_ & _ & H).
  apply (H [Some "plt.figure()"] "print('ok')"). discriminate.
Defined.

Lemma unsavable_figure_fails_the_run_witness :
  let w := picky_with "plt.figure(); plt.figure(); plt.title(r'$\frac{1}$')" in
  idle (py_configure (py_fresh (H := picky_pyodide))) w /\
  result (ui (submit (Pyodide0 := picky_pyodide) w))
  = ("Error: ValueError: mathtext", []) /\
  result (ui (submit (Pyodide0 := picky_pyodide)
                (step (Pyodide0 := picky_pyodide)
                   (EditorChange (Some "print('ok')"))
                   (submit (Pyodide0 := picky_pyodide) w))))
  = ("Error: ValueError: mathtext", []).
Proof.
  intros w.
  assert (Hidle : idle (py_configure (py_fresh (H := picky_pyodide))) w)
    by (apply picky_with_idle; discriminate).
  destruct (unsavable_figure_fails_the_run (Pyodide0 := picky_pyodide)
              (py_configure (py_fresh (H := picky_pyodide))) w
              (demo_figure "broken" (demo_figure "fine"
                 (py_redirect (py_configure (py_fresh (H := picky_pyodide))))))
              "" ["fine"] "broken" [] "ValueError: mathtext"
              Hidle ltac:(reflexivity) ltac:(reflexivity) ltac:(reflexivity)
              ltac:(reflexivity)
              ltac:(repeat constructor; eexists; reflexivity)
              ltac:(reflexivity))
    as (Hres & e3 & ((_ & _ & Hi & _) & _) & _ & Hnext).
  vm_compute in Hi. injection Hi as <-.
  split; [exact Hidle|]. split; [exact Hres|].
  apply (Hnext (Some "print('ok')")
           (demo_write ("ok" ++ newline)
              (py_redirect
                 {| sys_stdout := StringIO ""; figs := ["broken"];
                    name_sys := true; name_plt := true; heap := tt |}))
           ("ok" ++ newline) []); vm_compute; reflexivity.
Defined.

Lemma unbound_plt_fails_the_run_witness :
  idle (py_configure (py_fresh (H := picky_pyodide))) (picky_with "del plt") /\
  result (ui (submit (Pyodide0 := picky_pyodide) (picky_with "del plt")))
  = ("Error: NameError: plt", []).
Proof.
  assert (Hidle : idle (py_configure (py_fresh (H := picky_pyodide)))
                    (picky_with "del plt"))
    by (apply picky_with_idle; discriminate).
  split; [exact Hidle|].
  apply (unbound_plt_fails_the_run (Pyodide0 := picky_pyodide)
           (py_configure (py_fresh (H := picky_pyodide))) (picky_with "del plt")
           {| sys_stdout := StringIO ""; figs := []; name_sys := true;
              name_plt := false; heap := tt |} "" Hidle);
    reflexivity.
Defined.

Lemma unreadable_buffer_fails_the_run_witness :
  let w := picky_with "plt.figure(); sys.stdout = sys.__stdout__" in
  idle (py_configure (py_fresh (H := picky_pyodide))) w /\
  result (ui (submit (Pyodide0 := picky_pyodide) w))
  = ("Error: AttributeError: getvalue", []) /\
  interp (submit (Pyodide0 := picky_pyodide) w)
  = Some {| sys_stdout := Console; figs := ["fine"]; name_sys := true;
            name_plt := true; heap := tt |}.
Proof.
  intros w.
  assert (Hidle : idle (py_configure (py_fresh (H := picky_pyodide))) w)
    by (apply picky_with_idle; discriminate).
  destruct (unreadable_buffer_fails_the_run (Pyodide0 := picky_pyodide)
              (py_configure (py_fresh (H := picky_pyodide))) w
              {| sys_stdout := Console; figs := ["fine"]; name_sys := true;
                 name_plt := true; heap := tt |}
              "AttributeError: getvalue" Hidle ltac:(reflexivity) ltac:(reflexivity))
    as (Hres & ((_ & _ & Hi & _) & _) & _).
  split; [exact Hidle|]. split; [exact Hres | exact Hi].
Defined.

Lemma status_line_texts_witness :
  let w := run_events [Mount; LoadPyodideSettled Fulfilled]
             (initial (Figure := string) (Heap := unit)) in
  reachable w /\
  header (render (ui w)) = StatusLine Loader2 "Loading NumPy and Matplotlib..." /\
  (In "Loading NumPy and Matplotlib..."
      ["Initializing..."; "Loading Python environment...";
       "Loading NumPy and Matplotlib..."; "Configuring plotting..."] \/
   exists m, "Loading NumPy and Matplotlib..." = "Error: " ++ m /\
             phase (ui w) = Failed m).
Proof.
  intros w.
  assert (Hreach : reachable w) by apply reachable_run_events, reachable_initial.
  split; [exact Hreach|]. split; [reflexivity|].
  destruct (status_line_texts (Pyodide0 := demo_pyodide) w Hreach) as [Htext _].
  apply (Htext Loader2). reflexivity.
Defined.

(** * Runs, and what else runs on the interpreter *)

Section EventLoop.
Context {Figure Heap : Type} `{!Pyodide Figure Heap}.

Implicit Types (w : World Figure Heap) (e : Py Figure Heap) (t : RunTask) (c : Component).

(** ** Suspended calls *)

Lemma running_suspended t e w : running t e w -> suspended t e w.
Proof.
  intros (Hl & Hr & Hruns & Hpl & Hout). unfold suspended.
  split; [exact Hl|]. split; [exact Hr|]. split; [exact Hruns|].
  split; [exact Hpl|]. revert Hout. destruct (rt_pc t); intros Hout; try exact Hout.
  destruct Hout as (stdout & _ & Hout). eauto.
Qed.

Lemma click_suspended e w :
  idle e w ->
  suspended {| rt_code := currentCode (ui w); rt_pc := AwaitRedirect |} e
    (step ClickRun w).
Proof. intros Hidle. apply running_suspended, idle_onClick, Hidle. Qed.

Lemma callbacks_idle e w : idle e w -> idle (callbacks e) (run_callbacks w).
Proof.
  intros ((Hl & Hp & He & Hi) & Hr & Hruns).
  unfold idle, loaded, run_callbacks; simpl. rewrite He. simpl. tauto.
Qed.

Lemma callbacks_suspended t e w :
  suspended t e w -> suspended t (callbacks e) (run_callbacks w).
Proof.
  intros ((Hl & Hp & He & Hi) & Hr & Hruns & Hpl & Hout).
  unfold suspended, loaded, run_callbacks; simpl. rewrite He. simpl. tauto.
Qed.

Lemma edit_suspended v t e w :
  suspended t e w -> suspended t e (step (EditorChange v) w).
Proof.
  intros Hs. simpl. unfold handleEditorChange.
  destruct v as [v|]; [|exact Hs]. destruct (truthy v); [|exact Hs].
  destruct Hs as ((Hl & Hp & He & Hi) & Hr & Hruns & Hpl & Hout).
  unfold suspended, loaded; simpl. tauto.
Qed.

(** What happens in the background keeps an idle session idle and leaves
    what is shown as it is. *)
Lemma background_idle k e w :
  background k -> idle e w ->
  exists e', idle e' (tick k w) /\ result (ui (tick k w)) = result (ui w).
Proof.
  intros Hk Hidle. destruct k as [ev|]; simpl.
  - destruct ev; simpl in Hk; try contradiction.
    exists e. apply idle_other_event; [exact Hidle | discriminate].
  - exists (callbacks e). split; [apply callbacks_idle, Hidle | reflexivity].
Qed.

Lemma background_suspended k t e w :
  background k -> suspended t e w -> exists e', suspended t e' (tick k w).
Proof.
  intros Hk Hs. destruct k as [ev|]; simpl.
  - destruct ev; simpl in Hk; try contradiction.
    exists e. apply edit_suspended, Hs.
  - exists (callbacks e). apply callbacks_suspended, Hs.
Qed.

Lemma background_run_at ks n w :
  Forall background ks -> run_at n w -> run_at n (run_ticks ks w).
Proof.
  intros Hks. revert w. induction Hks as [|k ks Hk _ IH]; intros w Hw; simpl; [exact Hw|].
  apply IH. destruct Hw as [(t & e & Hs & Hn) | (e & m & Hidle & Hres)].
  - left. destruct (background_suspended k t e w Hk Hs) as [e' Hs']. eauto.
  - right. destruct (background_idle k e w Hk Hidle) as (e' & Hidle' & Hres').
    exists e', m. split; [exact Hidle' | congruence].
Qed.

(** The settlement of one of the first three awaits: the call is
    suspended at the next one, or has ended in the catch block. *)
Lemma suspended_settle_early t e w :
  suspended t e w -> rt_pc t <> AwaitFigures ->
  run_at (pred (awaits_left (rt_pc t))) (step (RunSettled 0) w).
Proof.
  intros ((Hl & Hp & He & Hi) & Hr & Hruns & Hpl & Hout) Hpc.
  simpl. unfold runPython_resume. rewrite Hruns, He. simpl.
  destruct (rt_pc t) eqn:Hpc'; try congruence; simpl.
  - left. exists {| rt_code := rt_code t; rt_pc := AwaitUserCode |}, (py_redirect e).
    split; [|reflexivity].
    unfold suspended, loaded; simpl. rewrite Hruns. simpl. tauto.
  - destruct (exec (rt_code t) e) as [e' [[]|m]].
    + left. exists {| rt_code := rt_code t; rt_pc := AwaitGetvalue |}, e'.
      split; [|reflexivity].
      unfold suspended, loaded; simpl. rewrite Hruns. simpl. tauto.
    + right. exists e', m.
      unfold idle, loaded, result; simpl. rewrite Hruns, Hpl. simpl. tauto.
  - destruct (py_getvalue e) as [stdout|m].
    + left. exists {| rt_code := rt_code t; rt_pc := AwaitFigures |}, e.
      split; [|reflexivity].
      unfold suspended, loaded; simpl. rewrite Hruns. simpl.
      repeat split; try assumption. exists stdout. reflexivity.
    + right. exists e, m.
      unfold idle, loaded, result; simpl. rewrite Hruns, Hpl. simpl. tauto.
Qed.

(** The settlement of the last await: the images shown are what the figure
    snippet returns for the figures open at that moment. *)
Lemma suspended_settle_figures t e w :
  suspended t e w -> rt_pc t = AwaitFigures ->
  idle (fst (py_figures e)) (step (RunSettled 0) w) /\
  result (ui (step (RunSettled 0) w))
  = match snd (py_figures e) with
    | Returned figures => (output (ui w), figures)
    | Raised m => ("Error: " ++ m, [])
    end.
Proof.
  intros ((Hl & Hp & He & Hi) & Hr & Hruns & Hpl & Hout) Hpc.
  simpl. unfold runPython_resume. rewrite Hruns, He. simpl. rewrite Hpc.
  destruct (py_figures e) as [e' [figures|m]]; simpl;
    unfold idle, loaded, result; simpl; rewrite Hruns, ?Hpl; simpl; tauto.
Qed.

Lemma run_at_settle n w :
  run_at (S (S n)) w -> run_at (S n) (step (RunSettled 0) w).
Proof.
  intros [(t & e & Hs & Hn) | (e & m & Hidle & Hres)].
  - assert (Hpc : rt_pc t <> AwaitFigures) by (intros Hpc; rewrite Hpc in Hn; discriminate).
    pose proof (suspended_settle_early t e w Hs Hpc) as H. rewrite Hn in H. exact H.
  - right. exists e, m. simpl. rewrite no_run_resume by apply Hidle. auto.
Qed.

(** With one await left, the last settlement ends the run; the plots
    shown are the images of the figures open at that moment, and there are
    none when no figure is open. *)
Lemma run_at_last w :
  run_at 1 w ->
  (exists e', idle e' (step (RunSettled 0) w)) /\
  (forall e, interp w = Some e -> figs e = [] ->
     plots (ui (step (RunSettled 0) w)) = []) /\
  (forall e e' figures,
     interp w = Some e -> runs w <> [] ->
     py_figures e = (e', Returned figures) ->
     plots (ui (step (RunSettled 0) w)) = figures).
Proof.
  intros [(t & e & Hs & Hn) | (e & m & Hidle & Hres)].
  - assert (Hpc : rt_pc t = AwaitFigures) by (destruct (rt_pc t); simpl in Hn; congruence).
    destruct (suspended_settle_figures t e w Hs Hpc) as [Hidle Hres].
    pose proof Hs as ((_ & _ & He & _) & _).
    split; [eauto|]. split.
    + intros e0 He0 Hnone. rewrite He in He0. injection He0 as <-.
      change (plots (ui ?x)) with (snd (result (ui x))). rewrite Hres.
      destruct (snd (py_figures e)) as [figures|m] eqn:Hfig; [|reflexivity].
      simpl. apply (py_figures_none e Hnone). exact Hfig.
    + intros e0 e' figures He0 _ Hfig. rewrite He in He0. injection He0 as <-.
      change (plots (ui ?x)) with (snd (result (ui x))). rewrite Hres, Hfig. reflexivity.
  - assert (Hsame : step (RunSettled 0) w = w)
      by (simpl; apply no_run_resume, Hidle).
    rewrite Hsame. split; [eauto|]. split.
    + intros _ _ _. change (plots (ui w)) with (snd (result (ui w))).
      rewrite Hres. reflexivity.
    + intros e0 e' figures _ Hruns. destruct Hidle as (_ & _ & Hr). congruence.
Qed.

Lemma run_ticks_app ks1 ks2 w :
  run_ticks (ks1 ++ ks2) w = run_ticks ks2 (run_ticks ks1 w).
Proof. unfold run_ticks. apply fold_left_app. Qed.

(** A run from the click to its last await, with anything in the
    background in between. *)
Lemma run_until_last_await e w b0 b1 b2 b3 b4 :
  idle e w ->
  Forall background b0 -> Forall background b1 -> Forall background b2 ->
  Forall background b3 -> Forall background b4 ->
  run_at 1
    (run_ticks (b0 ++ [Ev ClickRun] ++ b1 ++ [Ev (RunSettled 0)] ++ b2
                  ++ [Ev (RunSettled 0)] ++ b3 ++ [Ev (RunSettled 0)] ++ b4) w).
Proof.
  intros Hidle H0 H1 H2 H3 H4.
  rewrite !run_ticks_app.
  apply background_run_at; [exact H4|].
  change (run_ticks [Ev (RunSettled 0)] ?x) with (step (RunSettled 0) x).
  apply run_at_settle. apply background_run_at; [exact H3|].
  apply run_at_settle. apply background_run_at; [exact H2|].
  apply run_at_settle. apply background_run_at; [exact H1|].
  change (run_ticks [Ev ClickRun] ?x) with (step ClickRun x).
  assert (Hidle0 : exists e0, idle e0 (run_ticks b0 w)).
  { clear H1 H2 H3 H4. revert w e Hidle.
    induction H0 as [|k ks Hk _ IH]; intros w e Hidle; simpl; [eauto|].
    destruct (background_idle k e w Hk Hidle) as (e' & Hidle' & _).
    eapply IH. exact Hidle'. }
  destruct Hidle0 as [e0 Hidle0].
  left. eexists _, e0. split; [apply click_suspended, Hidle0 | reflexivity].
Qed.

(** ** Runs during which no figure is opened *)

Lemma background_idle_quiet ks e w :
  (forall e', figs (callbacks e') = figs e') ->
  Forall background ks -> idle e w -> figs e = [] ->
  exists e', idle e' (run_ticks ks w) /\ figs e' = [].
Proof.
  intros Hcb Hks. revert w e.
  induction Hks as [|k ks Hk _ IH]; intros w e Hidle Hnone; simpl; [eauto|].
  destruct k as [ev|]; simpl.
  - destruct ev; simpl in Hk; try contradiction.
    apply (IH _ e); [|exact Hnone].
    apply idle_other_event; [exact Hidle | discriminate].
  - apply (IH _ (callbacks e)); [apply callbacks_idle, Hidle|].
    rewrite Hcb. exact Hnone.
Qed.

Lemma background_quiet code ks n w :
  (forall e', figs (callbacks e') = figs e') ->
  Forall background ks -> quiet_run_at code n w ->
  quiet_run_at code n (run_ticks ks w).
Proof.
  intros Hcb Hks. revert w.
  induction Hks as [|k ks Hk _ IH]; intros w Hw; simpl; [exact Hw|].
  apply IH. destruct Hw as [(t & e & Hs & Hn & Hc & Hnone) | (e & m & Hidle & Hres)].
  - left. destruct k as [ev|]; simpl.
    + destruct ev; simpl in Hk; try contradiction.
      exists t, e. split; [apply edit_suspended, Hs | auto].
    + exists t, (callbacks e). split; [apply callbacks_suspended, Hs|].
      rewrite Hcb. auto.
  - right. destruct (background_idle k e w Hk Hidle) as (e' & Hidle' & Hres').
    exists e', m. split; [exact Hidle' | congruence].
Qed.

Lemma quiet_settle code n w :
  (forall e', figs (fst (exec code e')) = figs e') ->
  quiet_run_at code (S (S n)) w ->
  quiet_run_at code (S n) (step (RunSettled 0) w).
Proof.
  intros Hcode [(t & e & Hs & Hn & Hc & Hnone) | (e & m & Hidle & Hres)].
  2:{ right. exists e, m. simpl. rewrite no_run_resume by apply Hidle. auto. }
  destruct Hs as ((Hl & Hp & He & Hi) & Hr & Hruns & Hpl & Hout).
  simpl. unfold runPython_resume. rewrite Hruns, He. simpl.
  destruct (rt_pc t) eqn:Hpc; simpl in Hn; try discriminate; simpl.
  - left. exists {| rt_code := rt_code t; rt_pc := AwaitUserCode |}, (py_redirect e).
    split; [|simpl; split; [congruence | split; assumption]].
    unfold suspended, loaded; simpl. rewrite Hruns. simpl. tauto.
  - pose proof (Hcode e) as Hfigs. rewrite <- Hc in Hfigs.
    destruct (exec (rt_code t) e) as [e' [[]|m]]; simpl in Hfigs.
    + left. exists {| rt_code := rt_code t; rt_pc := AwaitGetvalue |}, e'.
      split; [|simpl; split; [congruence | split; congruence]].
      unfold suspended, loaded; simpl. rewrite Hruns. simpl. tauto.
    + right. exists e', m.
      unfold idle, loaded, result; simpl. rewrite Hruns, Hpl. simpl. tauto.
  - destruct (py_getvalue e) as [stdout|m].
    + left. exists {| rt_code := rt_code t; rt_pc := AwaitFigures |}, e.
      split; [|simpl; split; [congruence | split; assumption]].
      unfold suspended, loaded; simpl. rewrite Hruns. simpl.
      repeat split; try assumption. exists stdout. reflexivity.
    + right. exists e, m.
      unfold idle, loaded, result; simpl. rewrite Hruns, Hpl. simpl. tauto.
Qed.

Lemma quiet_run_at_run_at code n w : quiet_run_at code n w -> run_at n w.
Proof.
  intros [(t & e & Hs & Hn & _) | Hend]; [left; eauto | right; exact Hend].
Qed.

Lemma quiet_last code w :
  quiet_run_at code 1 w -> plots (ui (step (RunSettled 0) w)) = [].
Proof.
  intros Hq. destruct (run_at_last w (quiet_run_at_run_at _ _ _ Hq)) as (_ & Hnone & _).
  destruct Hq as [(t & e & Hs & _ & _ & Hfigs) | (e & m & Hidle & Hres)].
  - apply (Hnone e); [apply Hs | exact Hfigs].
  - assert (Hsame : step (RunSettled 0) w = w)
      by (simpl; apply no_run_resume, Hidle).
    rewrite Hsame. change (plots (ui w)) with (snd (result (ui w))).
    rewrite Hres. reflexivity.
Qed.

(** A run on an interpreter with no figure open, of code that opens none,
    with callbacks that open none: no image is shown at its end, whatever
    happens in the background. *)
Lemma quiet_run_shows_no_image e w b0 b1 b2 b3 b4 :
  idle e w -> figs e = [] ->
  Forall background b0 -> Forall background b1 -> Forall background b2 ->
  Forall background b3 -> Forall background b4 ->
  (forall e', figs (callbacks e') = figs e') ->
  (forall e', figs (fst (exec (currentCode (ui (run_ticks b0 w))) e')) = figs e') ->
  plots (ui (step (RunSettled 0)
               (run_ticks (b0 ++ [Ev ClickRun] ++ b1 ++ [Ev (RunSettled 0)] ++ b2
                             ++ [Ev (RunSettled 0)] ++ b3 ++ [Ev (RunSettled 0)] ++ b4)
                  w))) = [].
Proof.
  intros Hidle Hnone H0 H1 H2 H3 H4 Hcb Hcode.
  apply (quiet_last (currentCode (ui (run_ticks b0 w)))).
  rewrite !run_ticks_app.
  apply background_quiet; [exact Hcb | exact H4 |].
  change (run_ticks [Ev (RunSettled 0)] ?x) with (step (RunSettled 0) x).
  apply quiet_settle; [exact Hcode|]. apply background_quiet; [exact Hcb | exact H3 |].
  apply quiet_settle; [exact Hcode|]. apply background_quiet; [exact Hcb | exact H2 |].
  apply quiet_settle; [exact Hcode|]. apply background_quiet; [exact Hcb | exact H1 |].
  change (run_ticks [Ev ClickRun] ?x) with (step ClickRun x).
  destruct (background_idle_quiet b0 e w Hcb H0 Hidle Hnone) as (e0 & Hidle0 & Hnone0).
  left. eexists _, e0. split; [apply click_suspended, Hidle0|].
  simpl. auto.
Qed.

(** ** Cleanup at the end of a run, and the images of the next one *)

(** C1, as amended.  [runPython] never rebinds [sys.stdout] after line 74:
    when a run ends, on the success and on the error exit path alike,
    [sys.stdout] is what the user's code left, so the buffer of the run is
    still installed unless that code replaced it.  On the success exit path
    no figure is left open when the run ends.  A next run, with whatever
    runs in the background before and during it, ends, and it shows no image
    when no figure is open at the moment its figure snippet runs; this is so
    when the first submission succeeded and neither the callbacks on the
    event loop nor the code of the next submission open a figure. *)
Theorem C1_redirection_stays_figures_closed_on_success e w b0 b1 b2 b3 b4 :
  idle e w ->
  Forall background b0 -> Forall background b1 -> Forall background b2 ->
  Forall background b3 -> Forall background b4 ->
  let code := currentCode (ui w) in
  let user := fst (exec code (py_redirect e)) in
  let r := run_to_completion code e in
  let w3 := run_ticks
              (b0 ++ [Ev ClickRun] ++ b1 ++ [Ev (RunSettled 0)] ++ b2
                 ++ [Ev (RunSettled 0)] ++ b3 ++ [Ev (RunSettled 0)] ++ b4)
              (submit w) in
  idle (fst r) (submit w) /\
  sys_stdout (fst r) = sys_stdout user /\
  (forall s, sys_stdout user = StringIO s -> sys_stdout (fst r) <> Console) /\
  (forall p, snd r = Returned p -> figs (fst r) = []) /\
  (exists e4, idle e4 (step (RunSettled 0) w3)) /\
  (forall e3, interp w3 = Some e3 -> figs e3 = [] ->
     plots (ui (step (RunSettled 0) w3)) = []) /\
  (forall p s2,
      snd r = Returned p -> s2 <> "" ->
      figs (callbacks (fst r)) = figs (fst r) ->
      figs (fst (exec s2 (py_redirect (callbacks (fst r)))))
      = figs (py_redirect (callbacks (fst r))) ->
      plots (ui (submit (step (EditorChange (Some s2))
                           (run_callbacks (submit w))))) = []) /\
  (forall p,
      snd r = Returned p ->
      (forall e', figs (callbacks e') = figs e') ->
      (forall e', figs (fst (exec (currentCode (ui (run_ticks b0 (submit w)))) e'))
                  = figs e') ->
      plots (ui (step (RunSettled 0) w3)) = []).
Proof.
  intros Hidle H0 H1 H2 H3 H4 code user r w3.
  destruct (idle_submit e w Hidle) as (Hidle1 & _ & _). fold code r in Hidle1.
  destruct (run_to_completion_spec code e) as (Hout & Hret & _).
  fold user r in Hout, Hret.
  split; [exact Hidle1|]. split; [exact Hout|].
  split; [intros s Hs; rewrite Hout, Hs; discriminate|].
  split; [intros p Hp; apply (Hret p Hp)|].
  pose proof (run_until_last_await _ _ b0 b1 b2 b3 b4 Hidle1 H0 H1 H2 H3 H4) as Hlast.
  fold w3 in Hlast. destruct (run_at_last w3 Hlast) as (Hend & Hnone & _).
  split; [exact Hend|]. split; [exact Hnone|].
  split.
  2:{ intros p Hp Hcb Hcode. destruct (Hret p Hp) as (Hclosed & _).
      apply (quiet_run_shows_no_image (fst r)); assumption. }
  intros p s2 Hp Hs2 Hcb Hnew.
  destruct (Hret p Hp) as (Hclosed & _).
  pose proof (callbacks_idle _ _ Hidle1) as Hidle2.
  destruct (edit_idle _ _ s2 Hidle2 Hs2) as (Hidle3 & Hcode3).
  destruct (idle_submit _ _ Hidle3) as (_ & Hres & _).
  rewrite Hcode3 in Hres.
  change (plots (ui ?x)) with (snd (result (ui x))). rewrite Hres.
  destruct (run_to_completion_spec s2 (callbacks (fst r))) as (_ & Hret2 & _).
  destruct (snd (run_to_completion s2 (callbacks (fst r)))) as [p2|m]; [|reflexivity].
  destruct (Hret2 p2 eq_refl) as (_ & _ & Hall).
  rewrite Hnew in Hall. simpl in Hall. rewrite Hcb, Hclosed in Hall.
  apply Forall2_nil_inv_l in Hall. exact Hall.
Qed.

(** ** After a run has failed *)

(** C3, as amended.  When a run fails (the user's code, the read of the
    buffer or the figure snippet raises), the phase is back to [Ready],
    never [Failed], and the result shown is the error.  The session is idle
    with the interpreter the failed run left: after any edit the next click
    is admitted and starts a run of the stored code against that
    interpreter, and this run ends in [Ready] with its own outcome, which is
    its text and images when none of its awaited calls raises and the error
    of the call that raises otherwise; it ends in [Ready] too when callbacks
    and edits happen before and during it.  A step into [Failed] is only
    taken from [Loading]. *)
Theorem C3_run_failure_returns_to_ready e w m :
  reachable w -> idle e w ->
  snd (run_to_completion (currentCode (ui w)) e) = Raised m ->
  phase (ui (submit w)) = Ready /\
  result (ui (submit w)) = ("Error: " ++ m, []) /\
  (forall evs m', phase (ui (run_events evs (submit w))) <> Failed m') /\
  (exists e',
      idle e' (submit w) /\
      forall v,
        let w1 := step (EditorChange v) (submit w) in
        let r1 := run_to_completion (currentCode (ui w1)) e' in
        running {| rt_code := currentCode (ui w1); rt_pc := AwaitRedirect |} e'
          (step ClickRun w1) /\
        phase (ui (step ClickRun w1)) = Running /\
        idle (fst r1) (submit w1) /\
        phase (ui (submit w1)) = Ready /\
        (forall p, snd r1 = Returned p -> result (ui (submit w1)) = p) /\
        (forall m1, snd r1 = Raised m1 ->
           result (ui (submit w1)) = ("Error: " ++ m1, []))) /\
  (forall b0 b1 b2 b3 b4,
      Forall background b0 -> Forall background b1 -> Forall background b2 ->
      Forall background b3 -> Forall background b4 ->
      let w3 := run_ticks
                  (b0 ++ [Ev ClickRun] ++ b1 ++ [Ev (RunSettled 0)] ++ b2
                     ++ [Ev (RunSettled 0)] ++ b3 ++ [Ev (RunSettled 0)] ++ b4)
                  (submit w) in
      exists e4,
        idle e4 (step (RunSettled 0) w3) /\
        phase (ui (step (RunSettled 0) w3)) = Ready) /\
  (forall w0 ev m0,
      reachable w0 -> phase (ui (step ev w0)) = Failed m0 ->
      phase (ui w0) = Failed m0 \/ exists l, phase (ui w0) = Loading l).
Proof.
  intros Hreach Hidle Hfail.
  destruct (idle_submit e w Hidle) as (Hidle1 & Hres & _).
  rewrite Hfail in Hres. simpl in Hres.
  set (e1 := fst (run_to_completion (currentCode (ui w)) e)) in *.
  split; [apply (phase_idle e1), Hidle1|]. split; [exact Hres|].
  split.
  { intros evs m' Hph.
    assert (Hl : isLoading (ui (run_events evs (submit w))) = false).
    { apply loaded_run_events.
      - apply reachable_inv, reachable_run_events, Hreach.
      - apply Hidle1. }
    destruct (phase_loaded _ Hl); congruence. }
  split.
  { exists e1. split; [exact Hidle1|]. intros v w1 r1.
    destruct (idle_other_event e1 (submit w) (EditorChange v) Hidle1) as (Hidle2 & _);
      [discriminate|].
    fold w1 in Hidle2.
    pose proof (idle_onClick e1 w1 Hidle2) as Hrun.
    destruct (idle_submit _ _ Hidle2) as (Hidle3 & Hres3 & _).
    fold r1 in Hidle3, Hres3.
    split; [exact Hrun|].
    split; [eapply phase_running; exact Hrun|].
    split; [exact Hidle3|].
    split; [eapply phase_idle; exact Hidle3|].
    split; intros x Hx; rewrite Hres3, Hx; reflexivity. }
  split.
  { intros b0 b1 b2 b3 b4 H0 H1 H2 H3 H4 w3.
    pose proof (run_until_last_await _ _ b0 b1 b2 b3 b4 Hidle1 H0 H1 H2 H3 H4) as Hlast.
    fold w3 in Hlast. destruct (run_at_last w3 Hlast) as ((e4 & Hidle4) & _).
    exists e4. split; [exact Hidle4 | eapply phase_idle; exact Hidle4]. }
  intros w0 ev m0 Hreach0. apply failed_only_from_loading, reachable_inv, Hreach0.
Qed.

(** ** Results of successful runs *)



(** ** What an observer sees *)


End EventLoop.

(** * Examples for the cleanup, the failures and the results *)

Lemma timer_with_idle code :
  code <> "" ->
  idle (py_configure (py_fresh (H := timer_pyodide))) (timer_with code).
Proof.
  intros Hne. unfold timer_with.
  change (run_events ?l initial)
    with (step (Pyodide0 := timer_pyodide) (EditorChange (Some code))
            (run_events (Pyodide0 := timer_pyodide)
               [Mount; LoadPyodideSettled Fulfilled; LoadPackageSettled Fulfilled;
                ConfigureSettled Fulfilled] initial)).
  apply idle_other_event; [|discriminate].
  vm_compute. tauto.
Qed.

(** The claim C1 fails on the code.  A run whose code opens a figure and
    then raises ends with the figure open and the buffer installed, and the
    next submission, which opens none, shows that figure's image.  A run
    that succeeds ends with its buffer still installed.  A run that succeeds
    and leaves a timer whose callback opens a figure ends with no figure
    open, and the next submission shows the image of the figure the callback
    has opened in between. *)
Lemma C1_counterexample :
  let w1 := submit (demo_with "plt.figure(); raise ValueError('x')") in
  let w2 := submit (step (EditorChange (Some "print('ok')")) w1) in
  let v1 := submit (demo_with "print('ok')") in
  let t1 := submit (Pyodide0 := timer_pyodide)
              (timer_with
                 "import asyncio; asyncio.get_event_loop().call_later(1, plt.figure)") in
  let t2 := submit (Pyodide0 := timer_pyodide)
              (step (Pyodide0 := timer_pyodide) (EditorChange (Some "print('ok')"))
                 (run_callbacks (Pyodide0 := timer_pyodide) t1)) in
  result (ui w1) = ("Error: ValueError: x", []) /\
  option_map figs (interp w1) = Some ["first"] /\
  option_map sys_stdout (interp w1) = Some (StringIO "") /\
  result (ui w2) = ("ok" ++ newline, ["base64 png first"]) /\
  result (ui v1) = ("ok" ++ newline, []) /\
  option_map sys_stdout (interp v1) = Some (StringIO ("ok" ++ newline)) /\
  result (ui t1) = ("Execution completed", []) /\
  option_map figs (interp t1) = Some [] /\
  result (ui t2) = ("ok" ++ newline, ["base64 png later"]).
Proof. vm_compute. repeat split. Qed.

Lemma C1_redirection_stays_figures_closed_on_success_witness :
  let w := demo_with "plt.figure()" in
  let bg := [EventLoop; Ev (EditorChange (Some "print('ok')"))] in
  let w3 := run_ticks
              (bg ++ [Ev ClickRun] ++ [EventLoop] ++ [Ev (RunSettled 0)]
                  ++ [EventLoop] ++ [Ev (RunSettled 0)] ++ [EventLoop]
                  ++ [Ev (RunSettled 0)] ++ [EventLoop])
              (submit w) in
  idle demo_py w /\ Forall background bg /\ Forall background [EventLoop] /\
  result (ui (submit w)) = ("Execution completed", ["base64 png first"]) /\
  option_map figs (interp (submit w)) = Some [] /\
  plots (ui (step (RunSettled 0) w3)) = [] /\
  plots (ui (submit (step (EditorChange (Some "print('ok')"))
                       (run_callbacks (submit w))))) = [].
Proof.
  intros w bg w3.
  pose proof (demo_with_idle "plt.figure()") as Hidle.
  assert (Hbg : Forall background bg) by (repeat constructor).
  assert (H1 : Forall background [EventLoop]) by (repeat constructor).
  destruct (C1_redirection_stays_figures_closed_on_success
              (Pyodide0 := demo_pyodide) demo_py w bg [EventLoop] [EventLoop]
              [EventLoop] [EventLoop] Hidle Hbg H1 H1 H1 H1)
    as (_ & _ & _ & _ & _ & Hnone & Hnext & _).
  split; [exact Hidle|]. split; [exact Hbg|]. split; [exact H1|].
  split; [vm_compute; reflexivity|]. split; [vm_compute; reflexivity|].
  split.
  - apply (Hnone {| sys_stdout := StringIO ("ok" ++ newline); figs := [];
                    name_sys := true; name_plt := true; heap := tt |});
      vm_compute; reflexivity.
  - apply (Hnext ("Execution completed", ["base64 png first"]) "print('ok')");
      [vm_compute; reflexivity | discriminate
      | vm_compute; reflexivity | vm_compute; reflexivity].
Defined.

(** The claim C3 fails on the code.  On the second small interpreter the
    run of a text whose second figure cannot be saved fails and the session
    is back to [Ready]; the submission of [print('ok')] that follows fails
    with the same error, although the same text succeeds on a session that
    has failed no run.  After a run of [del plt], which fails in the figure
    snippet, the submission of [print('ok')] fails as well. *)
Lemma C3_counterexample :
  let w1 := submit (Pyodide0 := picky_pyodide)
              (picky_with "plt.figure(); plt.figure(); plt.title(r'$\frac{1}$')") in
  let w2 := submit (Pyodide0 := picky_pyodide)
              (step (Pyodide0 := picky_pyodide) (EditorChange (Some "print('ok')")) w1) in
  let v1 := submit (Pyodide0 := picky_pyodide) (picky_with "del plt") in
  let v2 := submit (Pyodide0 := picky_pyodide)
              (step (Pyodide0 := picky_pyodide) (EditorChange (Some "print('ok')")) v1) in
  result (ui w1) = ("Error: ValueError: mathtext", []) /\
  phase (ui w1) = Ready /\
  result (ui w2) = ("Error: ValueError: mathtext", []) /\
  phase (ui w2) = Ready /\
  result (ui (submit (Pyodide0 := picky_pyodide) (picky_with "print('ok')")))
  = ("ok" ++ newline, []) /\
  result (ui v1) = ("Error: NameError: plt", []) /\
  result (ui v2) = ("Error: NameError: plt", []).
Proof. vm_compute. repeat split. Qed.

Lemma C3_run_failure_returns_to_ready_witness :
  let w := demo_with "raise ValueError('x')" in
  let w1 := step (EditorChange (Some "print('ok')")) (submit w) in
  reachable w /\ idle demo_py w /\
  phase (ui (submit w)) = Ready /\
  result (ui (submit w)) = ("Error: ValueError: x", []) /\
  phase (ui (step ClickRun w1)) = Running /\
  phase (ui (submit w1)) = Ready /\
  result (ui (submit w1)) = ("ok" ++ newline, []).
Proof.
  intros w w1.
  pose proof (demo_with_reachable "raise ValueError('x')") as Hreach.
  pose proof (demo_with_idle "raise ValueError('x')") as Hidle.
  destruct (C3_run_failure_returns_to_ready (Pyodide0 := demo_pyodide) demo_py w
              "ValueError: x" Hreach Hidle ltac:(reflexivity))
    as (Hph & Hres & _ & (e' & ((_ & _ & Hi & _) & _) & Hnext) & _ & _).
  vm_compute in Hi. injection Hi as <-.
  destruct (Hnext (Some "print('ok')")) as (_ & Hrun & _ & Hready & Hok & _).
  split; [exact Hreach|]. split; [exact Hidle|].
  split; [exact Hph|]. split; [exact Hres|].
  split; [exact Hrun|]. split; [exact Hready|].
  apply Hok. vm_compute. reflexivity.
Defined.






